(** * cog1 framebuffer: colour buffer, z-buffer and dirty rectangle

    A shallow embedding of [src/cog1/framebuffer.js].  The module keeps its
    buffers in module-level variables; here they are the fields of one
    [State] record that every operation takes and returns.

    - pixel coordinates, sizes and indices are [Z];
    - the frame buffer ([imageData.data], a [Uint8ClampedArray]) is a list
      of bytes, four per pixel; a number stored into it goes through
      [Num.clamp_byte];
    - the z-buffer (a [Float32Array]) is a list of binary64 floats, every
      store going through [Js.fround];
    - [resetBuffer32] (a [Uint32Array]) is a list of 32-bit words, read
      back byte by byte when it is copied over the frame buffer;
    - an operation that can raise a [RangeError] returns an [option].

    Covered: [init], [initResetBuffer], [zBufferTest], [set], the three
    dirty-rectangle functions, [reset], [scaleZBuffer],
    [MultiplyFramebufferWithZBuffer] and [display]; of the canvas, [display]
    keeps the arguments of its [putImageData] call, and the answer of
    [scene.getDebug_zBuffer()] is an argument. *)

From Stdlib Require Import ZArith Lia Bool Floats.
From stdpp Require Import base list.

Local Open Scope Z_scope.

(** ** JavaScript numbers and typed arrays *)

Module Js.

(** [ToInt32]: the operands and the result of [<<] and [|]. *)
Definition ToInt32 (n : Z) : Z :=
  let m := n mod 2 ^ 32 in
  if 2 ^ 31 <=? m then m - 2 ^ 32 else m.

(** [ToUint32]: what a [Uint32Array] keeps of a number. *)
Definition ToUint32 (n : Z) : Z := n mod 2 ^ 32.

(** [a << k] *)
Definition shl (a k : Z) : Z := ToInt32 (Z.shiftl (ToInt32 a) (k mod 32)).

(** [a | b] *)
Definition bor (a b : Z) : Z := ToInt32 (Z.lor (ToInt32 a) (ToInt32 b)).

(** What a [Float32Array] keeps of a number: the nearest binary32 value
    (ties to even), read back as a binary64. *)
Definition fround (z : float) : float :=
  match Prim2SF z with
  | S754_finite s m e => SF2Prim (binary_round 24 128 s m e)
  | _ => z
  end.

(** [a[i]] on a typed array: [None] is [undefined]. *)
Definition get {A} (a : list A) (i : Z) : option A :=
  if i <? 0 then None else a !! Z.to_nat i.

(** [a[i] = v] on a typed array: a store outside the array is dropped. *)
Definition put {A} (a : list A) (i : Z) (v : A) : list A :=
  if i <? 0 then a else <[Z.to_nat i := v]> a.

(** [new T(buffer, byteOffset, length)] succeeds iff this holds; it raises
    a [RangeError] otherwise. *)
Definition view_ok (byteLength elemSize byteOffset length : Z) : bool :=
  (0 <=? byteOffset) && (byteOffset mod elemSize =? 0) && (0 <=? length)
  && (byteOffset + length * elemSize <=? byteLength).

(** [view.set(src)] where [view] starts at element [off] of [dst] and both
    views have [n] elements. *)
Definition copy {A} (dst : list A) (off : Z) (src : list A) (n : Z) : list A :=
  take (Z.to_nat off) dst ++ take (Z.to_nat n) src
    ++ drop (Z.to_nat (off + n)) dst.

(** The four bytes of a 32-bit word in memory order (little endian). *)
Definition word_bytes (v : Z) : list Z :=
  [Z.land v 255; Z.land (Z.shiftr v 8) 255;
   Z.land (Z.shiftr v 16) 255; Z.land (Z.shiftr v 24) 255].

(** The bytes of the buffer behind a [Uint32Array]. *)
Definition bytes (a : list Z) : list Z := concat (map word_bytes a).

(** [a[i] = v] on a plain array filled from index 0 upwards. *)
Definition array_put (a : list Z) (i : nat) (v : Z) : list Z :=
  if (i <? length a)%nat then <[i := v]> a
  else a ++ replicate (i - length a) 0 ++ [v].

(** [a[i]] of a plain array of integers, as an operand of a bit operation:
    [undefined] counts as 0. *)
Definition num_at (a : list Z) (i : nat) : Z := default 0 (a !! i).

End Js.

(** Numbers on their way into and out of the frame buffer. *)
Module Num.

(** An integer read from a byte array, as a number. *)
Definition of_Z (n : Z) : float := SF2Prim (binary_normalize 53 1024 n 0 false).

(** A depth read used in arithmetic: [undefined] is [NaN]. *)
Definition of_depth (o : option float) : float :=
  match o with
  | Some v => v
  | None => nan
  end.

(** A byte read used in arithmetic: [undefined] is [NaN]. *)
Definition of_byte (o : option Z) : float :=
  match o with
  | Some b => of_Z b
  | None => nan
  end.

(** What a [Uint8ClampedArray] keeps of a number: [NaN] is 0, the value is
    clamped to 0..255 and rounded to the nearest integer, ties to even. *)
Definition clamp_byte (z : float) : Z :=
  match Prim2SF z with
  | S754_finite false m e =>
      if 0 <=? e then Z.min 255 (Z.shiftl (Z.pos m) e)
      else
        let d := Z.shiftl 1 (- e) in
        let f := Z.pos m / d in
        let r := Z.pos m mod d in
        Z.min 255 (if 2 * r <? d then f
                   else if d <? 2 * r then f + 1
                   else if Z.even f then f else f + 1)
  | S754_infinity false => 255
  | _ => 0
  end.

(** [a[i]] of a plain array of numbers on its way into a byte array:
    [undefined] is [NaN]. *)
Definition channel (a : list float) (i : nat) : float :=
  match a !! i with
  | Some v => v
  | None => nan
  end.

End Num.

(** ** The module's state *)

Module DirtyRect.
Record t : Type := mk { x : Z; y : Z; xMax : Z; yMax : Z }.
End DirtyRect.

(** The rectangle [reset] hands to the scene. *)
Module ClearRect.
Record t : Type := mk { x : Z; y : Z; w : Z; h : Z }.
End ClearRect.

(** The 2D context handed to [init]: its size and the bytes that
    [getImageData(0, 0, width, height)] returns. *)
Module Ctx.
Record t : Type := mk { width : Z; height : Z; data : list Z }.
End Ctx.

(** The [color] argument of [set]: its shaded channels, any numbers. *)
Record Color : Type := { rgbaShaded : list float }.

Record State : Type := mkState {
  width : Z;
  height : Z;
  bufSize : Z;
  zBufSize : Z;
  framebuffer : list Z;
  zBuf : list float;
  resetBuffer32 : list Z;
  resetZBuffer : list float;
  bgColor : list Z;
  dirtyRect : DirtyRect.t
}.

Definition set_framebuffer (s : State) (fb : list Z) : State :=
  mkState (width s) (height s) (bufSize s) (zBufSize s) fb (zBuf s)
          (resetBuffer32 s) (resetZBuffer s) (bgColor s) (dirtyRect s).

Definition set_zBuf (s : State) (zb : list float) : State :=
  mkState (width s) (height s) (bufSize s) (zBufSize s) (framebuffer s) zb
          (resetBuffer32 s) (resetZBuffer s) (bgColor s) (dirtyRect s).

Definition set_dirtyRect (s : State) (d : DirtyRect.t) : State :=
  mkState (width s) (height s) (bufSize s) (zBufSize s) (framebuffer s)
          (zBuf s) (resetBuffer32 s) (resetZBuffer s) (bgColor s) d.

Definition maxDistance : float := (-10000)%float.

(** [bgColor] as the module is loaded. *)
Definition bgColor0 : list Z := [255; 255; 255; 255].

(** ** Dirty rectangle *)

Definition resetDirtyRect (width height : Z) : DirtyRect.t :=
  DirtyRect.mk (width - 1) (height - 1) 0 0.

Definition setMaxDirtyRect (width height : Z) : DirtyRect.t :=
  DirtyRect.mk 0 0 (width - 1) (height - 1).

Definition adjustDirtyRectangle (d : DirtyRect.t) (x y : Z) : DirtyRect.t :=
  let d :=
    if x <? DirtyRect.x d
    then DirtyRect.mk x (DirtyRect.y d) (DirtyRect.xMax d) (DirtyRect.yMax d)
    else if DirtyRect.xMax d <? x
    then DirtyRect.mk (DirtyRect.x d) (DirtyRect.y d) x (DirtyRect.yMax d)
    else d in
  if y <? DirtyRect.y d
  then DirtyRect.mk (DirtyRect.x d) y (DirtyRect.xMax d) (DirtyRect.yMax d)
  else if DirtyRect.yMax d <? y
  then DirtyRect.mk (DirtyRect.x d) (DirtyRect.y d) (DirtyRect.xMax d) y
  else d.

(** ** Depth test and pixel write *)

(** The fourth parameter of the source, [color], is not read by the body. *)
Definition zBufferTest (s : State) (x y : Z) (z : float) : State * bool :=
  let indexZBuf := y * width s + x in
  match Js.get (zBuf s) indexZBuf with
  | None => (set_zBuf s (Js.put (zBuf s) indexZBuf (Js.fround z)), true)
  | Some stored =>
      if PrimFloat.ltb stored (PrimFloat.add z 10)
      then (set_zBuf s (Js.put (zBuf s) indexZBuf (Js.fround z)), true)
      else (s, false)
  end.

(** An optional boolean argument: [None] is [undefined]; the source tests
    [flag === undefined || flag === true]. *)
Definition enabled (flag : option bool) : bool :=
  match flag with
  | None => true
  | Some b => b
  end.

Definition write_pixel (fb : list Z) (index : Z) (rgba : list float) : list Z :=
  let fb := Js.put fb index (Num.clamp_byte (Num.channel rgba 0)) in
  let fb := Js.put fb (index + 1) (Num.clamp_byte (Num.channel rgba 1)) in
  let fb := Js.put fb (index + 2) (Num.clamp_byte (Num.channel rgba 2)) in
  Js.put fb (index + 3) (Num.clamp_byte (Num.channel rgba 3)).

Definition set (s : State) (x y : Z) (z : float) (color : Color)
    (doZBufferTest adjustDirtyRect : option bool) : State :=
  if (x <? 0) || (y <? 0) || (width s <=? x) || (height s <=? y) then s
  else
    let '(s1, pass) :=
      if enabled doZBufferTest then zBufferTest s x y z else (s, true) in
    if negb pass then s1
    else
      let s2 :=
        if enabled adjustDirtyRect
        then set_dirtyRect s1 (adjustDirtyRectangle (dirtyRect s1) x y)
        else s1 in
      let index := (y * width s2 + x) * 4 in
      set_framebuffer s2 (write_pixel (framebuffer s2) index (rgbaShaded color)).

(** ** Reset *)

(** [None] is a [RangeError] from one of the four views; the inner option
    is the returned [clearRect], [None] there being [undefined] (the
    variable that is returned is assigned inside the branch only). *)
Definition reset (s : State) : option (State * option ClearRect.t) :=
  let d := dirtyRect s in
  let dirtyStartIndex := DirtyRect.y d * width s + DirtyRect.x d in
  let dirtyEndIndex := DirtyRect.yMax d * width s + DirtyRect.xMax d in
  let empty := resetDirtyRect (width s) (height s) in
  if dirtyStartIndex <? dirtyEndIndex then
    let dirtyWidth := dirtyEndIndex - dirtyStartIndex in
    let dirtyStartIndex := dirtyStartIndex * 4 in
    if Js.view_ok (4 * Z.of_nat (length (zBuf s))) 4 dirtyStartIndex dirtyWidth
       && Js.view_ok (4 * Z.of_nat (length (resetZBuffer s))) 4 0 dirtyWidth
    then
      let zb := Js.copy (zBuf s) (dirtyStartIndex / 4) (resetZBuffer s) dirtyWidth in
      let dirtyEndIndex := dirtyEndIndex * 4 in
      let dirtyWidth := dirtyEndIndex - dirtyStartIndex in
      if Js.view_ok (Z.of_nat (length (framebuffer s))) 1 dirtyStartIndex dirtyWidth
         && Js.view_ok (4 * Z.of_nat (length (resetBuffer32 s))) 1 0 dirtyWidth
      then
        let fb := Js.copy (framebuffer s) dirtyStartIndex
                          (Js.bytes (resetBuffer32 s)) dirtyWidth in
        let clearRect :=
          ClearRect.mk (DirtyRect.x d) (DirtyRect.y d)
                       (DirtyRect.xMax d - DirtyRect.x d + 1)
                       (DirtyRect.yMax d - DirtyRect.y d + 1) in
        Some (set_dirtyRect (set_framebuffer (set_zBuf s zb) fb) empty,
              Some clearRect)
      else None
    else None
  else Some (set_dirtyRect s empty, None).

(** ** Initialisation *)

(** The loop [bgColor[i] = Number(_bgColor[i])] followed by
    [bgColor[3] = 255]. *)
Definition resolve_bgColor (bg : list Z) (_bgColor : option (list Z)) : list Z :=
  match _bgColor with
  | None => bg
  | Some c =>
      Js.array_put
        (foldl (fun acc i => Js.array_put acc i (Js.num_at c i)) bg
               (seq 0 (length c)))
        3 255
  end.

(** [initResetBuffer]: the two templates, from [bgColor], [bufSize] and
    [zBufSize]. *)
Definition initResetBuffer (bg : list Z) (bufSize zBufSize : Z)
    : list Z * list float :=
  let r := Js.num_at bg 0 in
  let g := Js.num_at bg 1 in
  let b := Js.num_at bg 2 in
  let a := Js.num_at bg 3 in
  let bgcolor := Js.bor (Js.bor (Js.bor (Js.shl a 24) (Js.shl b 16)) (Js.shl g 8)) r in
  (replicate (Z.to_nat (bufSize / 4)) (Js.ToUint32 bgcolor),
   replicate (Z.to_nat zBufSize) (Js.fround maxDistance)).

(** The state [init] has built when it calls [reset]. *)
Definition init_state (_ctx : Ctx.t) (_bgColor : option (list Z)) : State :=
  let width := Ctx.width _ctx in
  let height := Ctx.height _ctx in
  let bufSize := width * height * 4 in
  let bg := resolve_bgColor bgColor0 _bgColor in
  let zBufSize := width * height in
  let '(resetBuffer32, resetZBuffer) := initResetBuffer bg bufSize zBufSize in
  mkState width height bufSize zBufSize (Ctx.data _ctx)
          (replicate (Z.to_nat zBufSize) 0%float)
          resetBuffer32 resetZBuffer bg (setMaxDirtyRect width height).

(** [init] on a freshly loaded module; the rectangle its [reset] returns is
    dropped by the source and kept here for inspection. *)
Definition init (_ctx : Ctx.t) (_bgColor : option (list Z))
    : option (State * option ClearRect.t) :=
  reset (init_state _ctx _bgColor).

(** ** Depth visualisation *)

(** One round of the first loop of [scaleZBuffer] on [(min, max)]; a cell
    beyond the array reads [undefined] and every comparison with it is
    false. *)
Definition minmax_step (zb : list float) (mm : float * float) (i : nat)
    : float * float :=
  match zb !! i with
  | None => mm
  | Some v =>
      if PrimFloat.eqb v maxDistance then mm
      else if PrimFloat.ltb (snd mm) v then (fst mm, v)
      else if PrimFloat.ltb v (fst mm) then (v, snd mm)
      else mm
  end.

Definition scale_minmax (s : State) : float * float :=
  foldl (minmax_step (zBuf s)) (PrimFloat.opp maxDistance, maxDistance)
        (seq 0 (Z.to_nat (zBufSize s))).

(** The divisor of the second loop. *)
Definition scale_range (s : State) : float :=
  let '(min, max) := scale_minmax s in
  let range := PrimFloat.abs (PrimFloat.sub max min) in
  if PrimFloat.eqb range 0 then 1%float else range.

(** One round of the second loop. *)
Definition scale_step (min range : float) (zb : list float) (i : nat)
    : list float :=
  match zb !! i with
  | None => zb
  | Some v =>
      if PrimFloat.eqb v maxDistance then zb
      else <[i := Js.fround (PrimFloat.div (PrimFloat.sub v min) range)]> zb
  end.

Definition scaleZBuffer (s : State) : State :=
  let min := fst (scale_minmax s) in
  let range := scale_range s in
  set_zBuf s (foldl (scale_step min range) (zBuf s)
                    (seq 0 (Z.to_nat (zBufSize s)))).

(** ** Reading the buffers back *)

(** The four channels of pixel [(x, y)]. *)
Definition pixel (s : State) (x y : Z) : list (option Z) :=
  let index := (y * width s + x) * 4 in
  [Js.get (framebuffer s) index; Js.get (framebuffer s) (index + 1);
   Js.get (framebuffer s) (index + 2); Js.get (framebuffer s) (index + 3)].

(** The depth cell of pixel [(x, y)]. *)
Definition depth (s : State) (x y : Z) : option float :=
  Js.get (zBuf s) (y * width s + x).

(** ** Well-formed states *)

(** The four buffers have the sizes [init] allocates for the canvas. *)
Definition allocated (s : State) : Prop :=
  length (zBuf s) = Z.to_nat (width s * height s)
  /\ length (resetZBuffer s) = Z.to_nat (width s * height s)
  /\ length (resetBuffer32 s) = Z.to_nat (width s * height s)
  /\ length (framebuffer s) = Z.to_nat (width s * height s * 4).

(** Each bound of the dirty rectangle is a canvas coordinate; the empty
    rectangle of [resetDirtyRect] satisfies this too. *)
Definition in_canvas (s : State) : Prop :=
  let d := dirtyRect s in
  (0 <= DirtyRect.x d < width s) /\ (0 <= DirtyRect.xMax d < width s)
  /\ (0 <= DirtyRect.y d < height s) /\ (0 <= DirtyRect.yMax d < height s).

(** A run of [adjustDirtyRectangle] calls. *)
Definition adjust_all (d : DirtyRect.t) (pts : list (Z * Z)) : DirtyRect.t :=
  foldl (fun d p => adjustDirtyRectangle d (fst p) (snd p)) d pts.

(** The pass condition of the depth test as the specification words it: the
    slot still holds the sentinel, or [stored < z + 10]. *)
Definition pass_as_specified (stored z : float) : bool :=
  PrimFloat.eqb stored maxDistance || PrimFloat.ltb stored (PrimFloat.add z 10).

(** The scenario canvases: blank (transparent black) image data. *)
Definition blank (w h : Z) : Ctx.t := Ctx.mk w h (replicate (Z.to_nat (w * h * 4)) 0).

(** ** Presentation and depth overlay *)

(** [z !== maxDistance] for a depth read. *)
Definition drawn (z : option float) : bool :=
  match z with
  | Some v => negb (PrimFloat.eqb v maxDistance)
  | None => true
  end.

(** One round of the loop of [MultiplyFramebufferWithZBuffer]. *)
Definition shade_pixel (greyOnly : bool) (zb : list float) (fb : list Z) (i : Z)
    : list Z :=
  let z := Js.get zb i in
  let j := i * 4 in
  if drawn z then
    let z := PrimFloat.sub 1 (Num.of_depth z) in
    if greyOnly then
      let z := PrimFloat.mul z 255 in
      let fb := Js.put fb j (Num.clamp_byte z) in
      let fb := Js.put fb (j + 1) (Num.clamp_byte z) in
      Js.put fb (j + 2) (Num.clamp_byte z)
    else
      let fb :=
        Js.put fb j (Num.clamp_byte (PrimFloat.mul (Num.of_byte (Js.get fb j)) z)) in
      let fb :=
        Js.put fb (j + 1)
               (Num.clamp_byte (PrimFloat.mul (Num.of_byte (Js.get fb (j + 1))) z)) in
      Js.put fb (j + 2)
             (Num.clamp_byte (PrimFloat.mul (Num.of_byte (Js.get fb (j + 2))) z))
  else fb.

Definition MultiplyFramebufferWithZBuffer (greyOnly : bool) (s : State) : State :=
  let s := scaleZBuffer s in
  let d := dirtyRect s in
  let dirtyStartIndex := DirtyRect.y d * width s + DirtyRect.x d in
  let dirtyEndIndex := DirtyRect.yMax d * width s + DirtyRect.xMax d in
  set_framebuffer s
    (foldl (shade_pixel greyOnly (zBuf s)) (framebuffer s)
           (seqZ dirtyStartIndex (dirtyEndIndex - dirtyStartIndex))).

(** The arguments of [ctx.putImageData(imageData, dx, dy, dirtyX, dirtyY,
    dirtyWidth, dirtyHeight)]. *)
Module PutImageData.
Record t : Type :=
  mk { dx : Z; dy : Z; dirtyX : Z; dirtyY : Z; dirtyWidth : Z; dirtyHeight : Z }.
End PutImageData.

(** What [display] leaves: the state, the fields [dirtyRect.width] and
    [dirtyRect.height] (written here and read nowhere else), and the
    [putImageData] call, if one is made. *)
Module Shown.
Record t : Type :=
  mk { state : State; width : Z; height : Z; put : option PutImageData.t }.
End Shown.

(** [debug_zBuffer] is what [scene.getDebug_zBuffer()] answers. *)
Definition display (debug_zBuffer : bool) (s : State) : Shown.t :=
  let s := if debug_zBuffer then MultiplyFramebufferWithZBuffer true s else s in
  let d := dirtyRect s in
  let w := DirtyRect.xMax d - DirtyRect.x d in
  let h := DirtyRect.yMax d - DirtyRect.y d in
  if (w <? 0) || (h <? 0) then Shown.mk s w h None
  else
    Shown.mk s (w + 1) (h + 1)
             (Some (PutImageData.mk 0 0 (DirtyRect.x d) (DirtyRect.y d)
                                    (w + 1) (h + 1))).

(** ** Calls of the exported functions *)

Inductive Call : Type :=
  | CallSet (x y : Z) (z : float) (color : Color)
            (doZBufferTest adjustDirtyRect : option bool)
  | CallZBufferTest (x y : Z) (z : float)
  | CallAdjustDirtyRectangle (x y : Z)
  | CallReset
  | CallDisplay (debug_zBuffer : bool).

(** One call on the state; [None] is an exception. *)
Definition call (s : State) (c : Call) : option State :=
  match c with
  | CallSet x y z color doZBufferTest adjustDirtyRect =>
      Some (set s x y z color doZBufferTest adjustDirtyRect)
  | CallZBufferTest x y z => Some (fst (zBufferTest s x y z))
  | CallAdjustDirtyRectangle x y =>
      Some (set_dirtyRect s (adjustDirtyRectangle (dirtyRect s) x y))
  | CallReset => fst <$> reset s
  | CallDisplay debug_zBuffer => Some (Shown.state (display debug_zBuffer s))
  end.

(** A sequence of calls, stopping at the first exception. *)
Fixpoint run (s : State) (cs : list Call) : option State :=
  match cs with
  | [] => Some s
  | c :: cs =>
      match call s c with
      | Some s' => run s' cs
      | None => None
      end
  end.

(** [adjustDirtyRectangle] asks its caller to check the range; the other
    calls take any argument. *)
Definition checked (w h : Z) (c : Call) : Prop :=
  match c with
  | CallAdjustDirtyRectangle x y => 0 <= x < w /\ 0 <= y < h
  | _ => True
  end.

(** The frame buffer holds bytes. *)
Definition bytes_ok (fb : list Z) : Prop := Forall (fun b => 0 <= b <= 255) fb.

(** The word [initResetBuffer] fills the colour template with, as the
    [Uint32Array] keeps it. *)
Definition packed_bgcolor (r g b a : Z) : Z :=
  Js.ToUint32 (Js.bor (Js.bor (Js.bor (Js.shl a 24) (Js.shl b 16)) (Js.shl g 8)) r).

(** What every call finds and leaves: buffers of the canvas' size, a dirty
    rectangle inside the canvas, bytes in the frame buffer. *)
Definition sound (s : State) : Prop :=
  allocated s /\ in_canvas s /\ bytes_ok (framebuffer s).

(** What no call changes after [init]: the canvas size and the two
    templates. *)
Definition stable (s0 s : State) : Prop :=
  width s = width s0 /\ height s = height s0
  /\ resetZBuffer s = resetZBuffer s0 /\ resetBuffer32 s = resetBuffer32 s0.

(** * Properties *)

(** ** Record and typed-array facts *)

Lemma set_zBuf_same (s : State) : set_zBuf s (zBuf s) = s.
Proof. now destruct s. Qed.

Lemma get_outside {A} (a : list A) (i : Z) :
  i < 0 \/ Z.of_nat (length a) <= i -> Js.get a i = None.
Proof.
  intros Hi. unfold Js.get.
  destruct (Z.ltb_spec i 0) as [Hneg | Hpos]; [reflexivity |].
  apply lookup_ge_None_2. lia.
Qed.

Lemma put_outside {A} (a : list A) (i : Z) (v : A) :
  i < 0 \/ Z.of_nat (length a) <= i -> Js.put a i v = a.
Proof.
  intros Hi. unfold Js.put.
  destruct (Z.ltb_spec i 0) as [Hneg | Hpos]; [reflexivity |].
  apply list_insert_ge. lia.
Qed.

Lemma get_inside {A} (a : list A) (i : Z) :
  0 <= i < Z.of_nat (length a) -> exists v, Js.get a i = Some v.
Proof.
  intros Hi. unfold Js.get.
  destruct (Z.ltb_spec i 0) as [Hneg | Hpos]; [lia |].
  apply lookup_lt_is_Some_2. lia.
Qed.

Lemma get_put_same {A} (a : list A) (i : Z) (v : A) :
  0 <= i < Z.of_nat (length a) -> Js.get (Js.put a i v) i = Some v.
Proof.
  intros Hi. unfold Js.get, Js.put.
  destruct (Z.ltb_spec i 0) as [Hneg | Hpos]; [lia |].
  apply list_lookup_insert_eq. lia.
Qed.

Lemma get_put_other {A} (a : list A) (i j : Z) (v : A) :
  i <> j -> Js.get (Js.put a i v) j = Js.get a j.
Proof.
  intros Hij. unfold Js.get, Js.put.
  destruct (Z.ltb_spec j 0) as [Hj | Hj]; [reflexivity |].
  destruct (Z.ltb_spec i 0) as [Hi | Hi]; [reflexivity |].
  apply list_lookup_insert_ne. lia.
Qed.

(** A canvas pixel has its cell in a z-buffer of the canvas' size. *)
Lemma index_in_range (w h x y : Z) :
  0 <= x < w -> 0 <= y < h -> 0 <= y * w + x < w * h.
Proof. intros Hx Hy. nia. Qed.

(** ** Dirty rectangle *)

Lemma adjustDirtyRectangle_outward (d : DirtyRect.t) (x y : Z) :
  let d' := adjustDirtyRectangle d x y in
  DirtyRect.x d' <= DirtyRect.x d /\ DirtyRect.y d' <= DirtyRect.y d
  /\ DirtyRect.xMax d <= DirtyRect.xMax d' /\ DirtyRect.yMax d <= DirtyRect.yMax d'.
Proof.
  destruct d as [dx dy dxm dym]. unfold adjustDirtyRectangle. simpl.
  destruct (Z.ltb_spec x dx); [| destruct (Z.ltb_spec dxm x)]; simpl;
    (destruct (Z.ltb_spec y dy); [| destruct (Z.ltb_spec dym y)]); simpl; lia.
Qed.

(** A rectangle that is not inverted covers the point added to it. *)
Lemma adjustDirtyRectangle_covers (d : DirtyRect.t) (x y : Z) :
  DirtyRect.x d <= DirtyRect.xMax d -> DirtyRect.y d <= DirtyRect.yMax d ->
  let d' := adjustDirtyRectangle d x y in
  DirtyRect.x d' <= x <= DirtyRect.xMax d' /\ DirtyRect.y d' <= y <= DirtyRect.yMax d'.
Proof.
  destruct d as [dx dy dxm dym]. unfold adjustDirtyRectangle. simpl. intros Hx Hy.
  destruct (Z.ltb_spec x dx); [| destruct (Z.ltb_spec dxm x)]; simpl;
    (destruct (Z.ltb_spec y dy); [| destruct (Z.ltb_spec dym y)]); simpl; lia.
Qed.

(** The first point of a dirty period, whichever pixel of the canvas it is,
    leaves a rectangle whose maximum corner does not come after its minimum
    corner in linear order: [reset] takes it for empty. *)
Lemma first_point_linearly_empty (w h x y : Z) :
  0 <= x < w -> 0 <= y < h ->
  let d := adjustDirtyRectangle (resetDirtyRect w h) x y in
  (DirtyRect.y d * w + DirtyRect.x d <? DirtyRect.yMax d * w + DirtyRect.xMax d)
  = false.
Proof.
  intros Hx Hy. unfold adjustDirtyRectangle, resetDirtyRect. simpl.
  destruct (Z.ltb_spec x (w - 1)); [| destruct (Z.ltb_spec 0 x)]; simpl;
    (destruct (Z.ltb_spec y (h - 1)); [| destruct (Z.ltb_spec 0 y)]); simpl;
    apply Z.ltb_ge; nia.
Qed.

(** C2, at the state every dirty period starts from: on a 4x4 canvas the
    empty rectangle is (3, 3, 0, 0); adding the point (1, 1) lowers the two
    minimum bounds and, the maximum comparisons sitting in the [else]
    branches, leaves both maxima at 0, so the rectangle (1, 1, 0, 0) does
    not cover the point. *)
Example adjustDirtyRectangle_from_empty :
  adjustDirtyRectangle (resetDirtyRect 4 4) 1 1 = DirtyRect.mk 1 1 0 0
  /\ (DirtyRect.xMax (adjustDirtyRectangle (resetDirtyRect 4 4) 1 1) <? 1) = true
  /\ (DirtyRect.yMax (adjustDirtyRectangle (resetDirtyRect 4 4) 1 1) <? 1) = true.
Proof. repeat split. Qed.

(** C8: over any run of [adjustDirtyRectangle] calls the minimum bounds
    never increase and the maximum bounds never decrease. *)
Theorem adjust_all_outward (pts : list (Z * Z)) (d : DirtyRect.t) :
  let d' := adjust_all d pts in
  DirtyRect.x d' <= DirtyRect.x d /\ DirtyRect.y d' <= DirtyRect.y d
  /\ DirtyRect.xMax d <= DirtyRect.xMax d' /\ DirtyRect.yMax d <= DirtyRect.yMax d'.
Proof.
  unfold adjust_all. revert d.
  induction pts as [| [px py] pts IH]; intros d; cbn.
  - lia.
  - specialize (IH (adjustDirtyRectangle d px py)). cbn in IH.
    pose proof (adjustDirtyRectangle_outward d px py) as Hstep. cbn in Hstep.
    lia.
Qed.

(** ** Depth test *)

(** C10: when the linear index of [(x, y)] is outside the z-buffer the read
    yields [undefined], the test passes for every [z], and the store is
    dropped: the state is returned as it was. *)
Theorem zBufferTest_outside (s : State) (x y : Z) (z : float) :
  length (zBuf s) = Z.to_nat (width s * height s) ->
  y * width s + x < 0 \/ width s * height s <= y * width s + x ->
  zBufferTest s x y z = (s, true).
Proof.
  intros Hlen Hout. unfold zBufferTest.
  assert (Hidx : y * width s + x < 0
                 \/ Z.of_nat (length (zBuf s)) <= y * width s + x) by lia.
  rewrite (get_outside _ _ Hidx), (put_outside _ _ _ Hidx).
  now rewrite set_zBuf_same.
Qed.

Lemma zBufferTest_outside_witness :
  zBufferTest (init_state (blank 4 4) None) 0 4 5%float
  = (init_state (blank 4 4) None, true).
Proof.
  apply zBufferTest_outside; [reflexivity | right; vm_compute; discriminate].
Defined.

(** C4, as the code has it: for a pixel of the canvas the test reads the
    stored depth and passes exactly when [stored < z + 10]; on a pass the
    cell holds [z] as a [Float32Array] keeps it and no other cell changes;
    otherwise the state is returned as it was.  A cell holding the sentinel
    gets no treatment of its own. *)
Theorem zBufferTest_inside (s : State) (x y : Z) (z : float) :
  length (zBuf s) = Z.to_nat (width s * height s) ->
  0 <= x < width s -> 0 <= y < height s ->
  exists stored,
    depth s x y = Some stored
    /\ zBufferTest s x y z =
         (if PrimFloat.ltb stored (PrimFloat.add z 10)
          then (set_zBuf s (Js.put (zBuf s) (y * width s + x) (Js.fround z)), true)
          else (s, false))
    /\ (PrimFloat.ltb stored (PrimFloat.add z 10) = true ->
        depth (fst (zBufferTest s x y z)) x y = Some (Js.fround z)
        /\ forall i, i <> y * width s + x ->
             Js.get (zBuf (fst (zBufferTest s x y z))) i = Js.get (zBuf s) i).
Proof.
  intros Hlen Hx Hy.
  pose proof (index_in_range _ _ _ _ Hx Hy) as Hidx.
  assert (Hin : 0 <= y * width s + x < Z.of_nat (length (zBuf s))) by lia.
  destruct (get_inside (zBuf s) _ Hin) as [stored Hget].
  exists stored. unfold depth, zBufferTest. rewrite Hget.
  split; [reflexivity | split; [reflexivity |]].
  intros Hpass. rewrite Hpass. simpl. split.
  - now apply get_put_same.
  - intros i Hi. apply get_put_other. congruence.
Qed.

Lemma zBufferTest_inside_witness :
  exists stored,
    depth (init_state (blank 4 4) None) 1 1 = Some stored
    /\ zBufferTest (init_state (blank 4 4) None) 1 1 5%float =
         (if PrimFloat.ltb stored (PrimFloat.add 5 10)
          then (set_zBuf (init_state (blank 4 4) None)
                  (Js.put (zBuf (init_state (blank 4 4) None)) 5 (Js.fround 5)),
                true)
          else (init_state (blank 4 4) None, false)).
Proof.
  destruct (zBufferTest_inside (init_state (blank 4 4) None) 1 1 5%float)
    as (stored & Hdepth & Htest & _).
  - reflexivity.
  - vm_compute. split; [discriminate | reflexivity].
  - vm_compute. split; [discriminate | reflexivity].
  - exists stored. split; [exact Hdepth | exact Htest].
Defined.

(** C4 as worded fails: after [init] on a 4x4 canvas the cell of pixel
    (1, 1) holds the sentinel, the worded condition accepts [z = -20000],
    and the code rejects it ([-10000 < -19990] is false) and changes
    nothing. *)
Lemma zBufferTest_sentinel_rejected :
  exists s r, init (blank 4 4) None = Some (s, r)
    /\ depth s 1 1 = Some maxDistance
    /\ pass_as_specified maxDistance (-20000)%float = true
    /\ zBufferTest s 1 1 (-20000)%float = (s, false).
Proof. eexists _, _. repeat split; vm_compute; reflexivity. Qed.

(** ** Pixel write *)

(** C7: a [set] outside the canvas returns the state as it was, whatever
    the depth, the colour and the two flags. *)
Theorem set_outside (s : State) (x y : Z) (z : float) (color : Color)
    (doZBufferTest adjustDirtyRect : option bool) :
  x < 0 \/ y < 0 \/ width s <= x \/ height s <= y ->
  set s x y z color doZBufferTest adjustDirtyRect = s.
Proof.
  intros Hout. unfold set.
  destruct (Z.ltb_spec x 0); [reflexivity |].
  destruct (Z.ltb_spec y 0); [reflexivity |].
  destruct (Z.leb_spec (width s) x); [reflexivity |].
  destruct (Z.leb_spec (height s) y); [reflexivity |].
  lia.
Qed.

Lemma set_outside_witness :
  set (init_state (blank 4 4) None) 4 1 5%float {| rgbaShaded := [1; 2; 3; 4]%float |}
      None None
  = init_state (blank 4 4) None.
Proof. apply set_outside. right; right; left. vm_compute. discriminate. Defined.

(** ** Reset *)

Lemma view_ok_intro (byteLength elemSize byteOffset len : Z) :
  0 <= byteOffset -> byteOffset mod elemSize = 0 -> 0 <= len ->
  byteOffset + len * elemSize <= byteLength ->
  Js.view_ok byteLength elemSize byteOffset len = true.
Proof.
  intros H1 H2 H3 H4. unfold Js.view_ok.
  rewrite !andb_true_iff, !Z.leb_le, Z.eqb_eq. auto.
Qed.

(** The linear indices of the two corners of a rectangle inside the canvas
    are cells of the canvas. *)
Lemma corners_in_range (s : State) :
  in_canvas s ->
  let d := dirtyRect s in
  0 <= DirtyRect.y d * width s + DirtyRect.x d < width s * height s
  /\ 0 <= DirtyRect.yMax d * width s + DirtyRect.xMax d < width s * height s.
Proof.
  unfold in_canvas. cbn zeta. intros (Hx & Hxm & Hy & Hym).
  split; apply index_in_range; assumption.
Qed.

(** With buffers of the canvas' size and a rectangle inside the canvas no
    view is out of range: [reset] returns, and this is what it returns. *)
Lemma reset_unfold (s : State) :
  allocated s -> in_canvas s ->
  let d := dirtyRect s in
  let first := DirtyRect.y d * width s + DirtyRect.x d in
  let last := DirtyRect.yMax d * width s + DirtyRect.xMax d in
  reset s =
    if first <? last
    then Some (set_dirtyRect
                 (set_framebuffer
                    (set_zBuf s (Js.copy (zBuf s) first (resetZBuffer s) (last - first)))
                    (Js.copy (framebuffer s) (first * 4)
                             (Js.bytes (resetBuffer32 s)) (last * 4 - first * 4)))
                 (resetDirtyRect (width s) (height s)),
               Some (ClearRect.mk (DirtyRect.x d) (DirtyRect.y d)
                                  (DirtyRect.xMax d - DirtyRect.x d + 1)
                                  (DirtyRect.yMax d - DirtyRect.y d + 1)))
    else Some (set_dirtyRect s (resetDirtyRect (width s) (height s)), None).
Proof.
  intros (Hz & Hrz & Hr32 & Hfb) Hcanvas.
  destruct (corners_in_range s Hcanvas) as [Hfirst Hlast].
  cbn zeta in *. unfold reset.
  set (first := DirtyRect.y (dirtyRect s) * width s + DirtyRect.x (dirtyRect s)) in *.
  set (last := DirtyRect.yMax (dirtyRect s) * width s + DirtyRect.xMax (dirtyRect s)) in *.
  destruct (Z.ltb_spec first last) as [Hlt | Hge]; [| reflexivity].
  rewrite !view_ok_intro; try lia.
  - cbn [andb]. now rewrite Z.div_mul by lia.
  - apply Z.mod_1_r.
  - apply Z.mod_1_r.
  - apply Z.mod_0_l; lia.
  - apply Z.mod_mul; lia.
Qed.




(** X7: What [reset] does to the z-buffer: the cells whose linear index lies
    from the minimum corner up to, and not including, the maximum corner
    take the template's value; every other cell keeps its own. *)
Lemma reset_depth_cells (s s' : State) (r : option ClearRect.t) (i : Z) :
  allocated s -> in_canvas s -> reset s = Some (s', r) ->
  let d := dirtyRect s in
  let first := DirtyRect.y d * width s + DirtyRect.x d in
  let last := DirtyRect.yMax d * width s + DirtyRect.xMax d in
  Js.get (zBuf s') i =
    if (first <=? i) && (i <? last)
    then Js.get (resetZBuffer s) (i - first)
    else Js.get (zBuf s) i.
Proof.
  intros Halloc Hcanvas Hreset.
  rewrite (reset_unfold s Halloc Hcanvas) in Hreset. cbn zeta in *.
  destruct (corners_in_range s Hcanvas) as [Hfirst Hlast]. cbn zeta in *.
  destruct Halloc as (Hz & Hrz & _).
  set (first := DirtyRect.y (dirtyRect s) * width s + DirtyRect.x (dirtyRect s)) in *.
  set (last := DirtyRect.yMax (dirtyRect s) * width s + DirtyRect.xMax (dirtyRect s)) in *.
  destruct (Z.ltb_spec first last) as [Hlt | Hge];
    inversion Hreset; subst s' r; clear Hreset; cbn.
  - unfold Js.copy, Js.get.
    destruct (Z.leb_spec first i) as [Hfi | Hfi];
      destruct (Z.ltb_spec i last) as [Hil | Hil]; cbn [andb];
      destruct (Z.ltb_spec i 0) as [Hi0 | Hi0]; try lia; try reflexivity.
    + destruct (Z.ltb_spec (i - first) 0); [lia |].
      rewrite lookup_app_r; rewrite length_take; [| lia].
      rewrite lookup_app_l by (rewrite length_take; lia).
      rewrite lookup_take_lt by lia. f_equal. lia.
    + rewrite lookup_app_r; rewrite length_take; [| lia].
      rewrite lookup_app_r; rewrite length_take; [| lia].
      rewrite lookup_drop. f_equal. lia.
    + rewrite lookup_app_l by (rewrite length_take; lia).
      apply lookup_take_lt. lia.
  - destruct (Z.leb_spec first i); destruct (Z.ltb_spec i last);
      cbn [andb]; try reflexivity; lia.
Qed.

(** ** Initialisation *)

Lemma allocated_init_state (ctx : Ctx.t) (bg : option (list Z)) :
  length (Ctx.data ctx) = Z.to_nat (Ctx.width ctx * Ctx.height ctx * 4) ->
  allocated (init_state ctx bg).
Proof.
  intros Hdata. unfold allocated, init_state, initResetBuffer. cbn.
  rewrite !length_replicate, Z.div_mul by lia. auto.
Qed.

Lemma in_canvas_init_state (ctx : Ctx.t) (bg : option (list Z)) :
  1 <= Ctx.width ctx -> 1 <= Ctx.height ctx -> in_canvas (init_state ctx bg).
Proof. intros Hw Hh. unfold in_canvas, init_state, initResetBuffer. cbn. lia. Qed.

(** On every canvas with at least one pixel [init] returns, and the depth
    cell of the last pixel still holds the 0 the z-buffer was allocated
    with: the range that [reset] copies ends one cell before the maximum
    corner. *)
Lemma init_last_depth_cell (ctx : Ctx.t) (bg : option (list Z)) :
  1 <= Ctx.width ctx -> 1 <= Ctx.height ctx ->
  length (Ctx.data ctx) = Z.to_nat (Ctx.width ctx * Ctx.height ctx * 4) ->
  exists s r,
    init ctx bg = Some (s, r)
    /\ depth s (Ctx.width ctx - 1) (Ctx.height ctx - 1) = Some 0%float.
Proof.
  intros Hw Hh Hdata. unfold init.
  rewrite (reset_unfold _ (allocated_init_state ctx bg Hdata)
                          (in_canvas_init_state ctx bg Hw Hh)).
  cbn zeta. unfold init_state, initResetBuffer. cbn.
  set (w := Ctx.width ctx) in *. set (h := Ctx.height ctx) in *.
  assert (Hlast : 0 <= (h - 1) * w + (w - 1) < w * h) by nia.
  change (0 * w + 0) with 0.
  destruct (Z.ltb_spec 0 ((h - 1) * w + (w - 1))) as [Hpos | Hzero];
    eexists _, _; (split; [reflexivity |]); unfold depth, Js.get; cbn.
  - destruct (Z.ltb_spec ((h - 1) * w + (w - 1)) 0); [lia |].
    unfold Js.copy. rewrite Z.sub_0_r, Z.add_0_l.
    change (Z.to_nat 0) with 0%nat. rewrite take_0. cbn [app].
    rewrite take_replicate, drop_replicate.
    rewrite lookup_app_r; rewrite length_replicate; [| lia].
    apply lookup_replicate_2. lia.
  - destruct (Z.ltb_spec ((h - 1) * w + (w - 1)) 0); [lia |].
    apply lookup_replicate_2. lia.
Qed.

(** C1, on two blank canvases with background (10, 20, 30).  4x4: the
    [reset] inside [init] returns the whole canvas, pixels (0,0) and (2,3)
    hold the background, and the last pixel (3,3) keeps the canvas bytes
    (0,0,0,0) and the depth 0 instead of the background and the sentinel.
    1x1: the same [reset] returns nothing and clears nothing. *)
Example init_4x4_and_1x1 :
  (exists s,
     init (blank 4 4) (Some [10; 20; 30]) = Some (s, Some (ClearRect.mk 0 0 4 4))
     /\ bgColor s = [10; 20; 30; 255]
     /\ pixel s 0 0 = [Some 10; Some 20; Some 30; Some 255]
     /\ depth s 0 0 = Some maxDistance
     /\ pixel s 2 3 = [Some 10; Some 20; Some 30; Some 255]
     /\ depth s 2 3 = Some maxDistance
     /\ pixel s 3 3 = [Some 0; Some 0; Some 0; Some 0]
     /\ depth s 3 3 = Some 0%float)
  /\ (exists s,
        init (blank 1 1) (Some [10; 20; 30]) = Some (s, None)
        /\ pixel s 0 0 = [Some 0; Some 0; Some 0; Some 0]
        /\ depth s 0 0 = Some 0%float).
Proof. split; eexists; repeat split; vm_compute; reflexivity. Qed.

(** C3, the scenario of the specification: 4x4 canvas, background
    (10, 20, 30), [init], then [set(1, 1, 5, {rgbaShaded: [1, 2, 3, 4]})]
    with both flags left out.  The depth test passes and the pixel is
    written; the dirty rectangle becomes (1, 1, 0, 0); the following
    [reset] finds the maximum corner before the minimum corner, returns
    nothing and copies nothing, so pixel (1, 1) still reads (1, 2, 3, 4) and
    its depth still reads 5. *)
Example set_then_reset_4x4 :
  exists s0 r0 s1,
    init (blank 4 4) (Some [10; 20; 30]) = Some (s0, r0)
    /\ pixel s0 1 1 = [Some 10; Some 20; Some 30; Some 255]
    /\ depth s0 1 1 = Some maxDistance
    /\ snd (zBufferTest s0 1 1 5%float) = true
    /\ dirtyRect (set s0 1 1 5%float {| rgbaShaded := [1; 2; 3; 4]%float |} None None)
       = DirtyRect.mk 1 1 0 0
    /\ reset (set s0 1 1 5%float {| rgbaShaded := [1; 2; 3; 4]%float |} None None)
       = Some (s1, None)
    /\ pixel s1 1 1 = [Some 1; Some 2; Some 3; Some 4]
    /\ depth s1 1 1 = Some 5%float.
Proof. eexists _, _, _. repeat split; vm_compute; reflexivity. Qed.

(** ** Depth visualisation *)

(** The divisor of the scaling loop is never zero. *)
Lemma scale_range_nonzero (s : State) : PrimFloat.eqb (scale_range s) 0 = false.
Proof.
  unfold scale_range. destruct (scale_minmax s) as [min max].
  destruct (PrimFloat.eqb (PrimFloat.abs (PrimFloat.sub max min)) 0) eqn:E;
    [reflexivity | exact E].
Qed.

Section AllSentinel.

Variable zb : list float.
Hypothesis Hall : Forall (fun v => v = maxDistance) zb.

Lemma minmax_step_sentinel (mm : float * float) (i : nat) :
  minmax_step zb mm i = mm.
Proof.
  unfold minmax_step. destruct (zb !! i) as [v |] eqn:Hv; [| reflexivity].
  rewrite (proj1 (Forall_lookup _ _) Hall i v Hv). reflexivity.
Qed.

Lemma minmax_sentinel (l : list nat) (mm : float * float) :
  foldl (minmax_step zb) mm l = mm.
Proof.
  induction l as [| i l IH]; cbn; [reflexivity |].
  now rewrite minmax_step_sentinel.
Qed.

Lemma scale_sentinel (min range : float) (l : list nat) :
  foldl (scale_step min range) zb l = zb.
Proof.
  induction l as [| i l IH]; cbn; [reflexivity |].
  assert (Hstep : scale_step min range zb i = zb).
  { unfold scale_step. destruct (zb !! i) as [v |] eqn:Hv; [| reflexivity].
    rewrite (proj1 (Forall_lookup _ _) Hall i v Hv). reflexivity. }
  now rewrite Hstep.
Qed.

End AllSentinel.

(** C9: on a z-buffer whose every cell is the sentinel, [scaleZBuffer]
    returns the state as it was; the divisor it computed is 20000 (from the
    untouched initial minimum 10000 and maximum -10000), which is not
    zero. *)
Theorem scaleZBuffer_all_sentinel (s : State) :
  Forall (fun v => v = maxDistance) (zBuf s) ->
  scaleZBuffer s = s
  /\ scale_range s = 20000%float
  /\ PrimFloat.eqb (scale_range s) 0 = false.
Proof.
  intros Hall. split; [| split].
  - unfold scaleZBuffer. rewrite (scale_sentinel _ Hall). apply set_zBuf_same.
  - unfold scale_range, scale_minmax. rewrite (minmax_sentinel _ Hall). reflexivity.
  - apply scale_range_nonzero.
Qed.

Lemma scaleZBuffer_all_sentinel_witness :
  let s := set_zBuf (init_state (blank 2 2) None) (replicate 4 maxDistance) in
  scaleZBuffer s = s
  /\ scale_range s = 20000%float
  /\ PrimFloat.eqb (scale_range s) 0 = false.
Proof.
  apply (scaleZBuffer_all_sentinel
           (set_zBuf (init_state (blank 2 2) None) (replicate 4 maxDistance))).
  cbn. repeat constructor.
Defined.

(** C6, on a z-buffer reached through the interface: 3x1 canvas, [init],
    [set(0, 0, 5, ..)], [set(2, 0, 7, ..)].  The cells are 5, sentinel, 7.
    Both values raise the maximum, so the [else] branch that would lower
    the minimum is never taken: the minimum stays at its initial 10000 and
    the range is 9993.  The sentinel cell is kept; the other two become
    (5 - 10000) / 9993 and (7 - 10000) / 9993 = -1, both below 0, where the
    minimum 5 and the range 2 of the claim give 0 and 1. *)
Example scaleZBuffer_3x1 :
  exists s0 r0,
    init (blank 3 1) None = Some (s0, r0)
    /\ let c := {| rgbaShaded := [1; 2; 3; 4]%float |} in
       let s := set (set s0 0 0 5%float c None None) 2 0 7%float c None None in
       zBuf s = [5%float; maxDistance; 7%float]
       /\ scale_minmax s = (10000%float, 7%float)
       /\ scale_range s = 9993%float
       /\ zBuf (scaleZBuffer s)
          = [Js.fround (PrimFloat.div (PrimFloat.sub 5 10000) 9993);
             maxDistance; (-1)%float]
       /\ PrimFloat.ltb (Js.fround (PrimFloat.div (PrimFloat.sub 5 10000) 9993)) 0
          = true.
Proof. eexists _, _. repeat split; vm_compute; reflexivity. Qed.

(** ** The invariant of the interface

    [allocated] and [in_canvas] hold after [init] and are kept by [set] and
    [reset], so the states the results above assume are the ones the
    interface reaches through [init], [set] and [reset]. *)

Lemma length_put {A} (a : list A) (i : Z) (v : A) :
  length (Js.put a i v) = length a.
Proof. unfold Js.put. destruct (i <? 0); [reflexivity | apply length_insert]. Qed.

Lemma length_write_pixel (fb : list Z) (index : Z) (rgba : list float) :
  length (write_pixel fb index rgba) = length fb.
Proof. unfold write_pixel. now rewrite !length_put. Qed.

Lemma length_bytes (a : list Z) : length (Js.bytes a) = (4 * length a)%nat.
Proof.
  unfold Js.bytes. induction a as [| v a IH]; [reflexivity |].
  cbn [map concat]. rewrite length_app, IH. cbn. lia.
Qed.

Lemma length_copy {A} (dst src : list A) (off n : Z) :
  0 <= off -> 0 <= n -> off + n <= Z.of_nat (length dst) ->
  n <= Z.of_nat (length src) ->
  length (Js.copy dst off src n) = length dst.
Proof.
  intros Hoff Hn Hdst Hsrc. unfold Js.copy.
  rewrite !length_app, !length_take, length_drop. lia.
Qed.

Lemma zBufferTest_fields (s : State) (x y : Z) (z : float) :
  let s' := fst (zBufferTest s x y z) in
  width s' = width s /\ height s' = height s
  /\ length (zBuf s') = length (zBuf s)
  /\ resetZBuffer s' = resetZBuffer s /\ resetBuffer32 s' = resetBuffer32 s
  /\ framebuffer s' = framebuffer s /\ dirtyRect s' = dirtyRect s.
Proof.
  unfold zBufferTest.
  destruct (Js.get (zBuf s) (y * width s + x)) as [stored |];
    [destruct (PrimFloat.ltb stored (PrimFloat.add z 10)) |];
    cbn; rewrite ?length_put; auto 10.
Qed.

Lemma adjustDirtyRectangle_in_canvas (d : DirtyRect.t) (w h x y : Z) :
  0 <= x < w -> 0 <= y < h ->
  (0 <= DirtyRect.x d < w) /\ (0 <= DirtyRect.xMax d < w)
  /\ (0 <= DirtyRect.y d < h) /\ (0 <= DirtyRect.yMax d < h) ->
  let d' := adjustDirtyRectangle d x y in
  (0 <= DirtyRect.x d' < w) /\ (0 <= DirtyRect.xMax d' < w)
  /\ (0 <= DirtyRect.y d' < h) /\ (0 <= DirtyRect.yMax d' < h).
Proof.
  destruct d as [dx dy dxm dym]. unfold adjustDirtyRectangle. simpl. intros Hx Hy Hd.
  destruct (Z.ltb_spec x dx); [| destruct (Z.ltb_spec dxm x)]; simpl;
    (destruct (Z.ltb_spec y dy); [| destruct (Z.ltb_spec dym y)]); simpl; lia.
Qed.

Lemma set_invariant (s : State) (x y : Z) (z : float) (color : Color)
    (doZBufferTest adjustDirtyRect : option bool) :
  allocated s -> in_canvas s ->
  allocated (set s x y z color doZBufferTest adjustDirtyRect)
  /\ in_canvas (set s x y z color doZBufferTest adjustDirtyRect).
Proof.
  intros Halloc Hcanvas. unfold set.
  destruct (Z.ltb_spec x 0); [now split |].
  destruct (Z.ltb_spec y 0); [now split |].
  destruct (Z.leb_spec (width s) x); [now split |].
  destruct (Z.leb_spec (height s) y); [now split |]. cbn [orb].
  assert (Hpre : exists s1 pass,
             (if enabled doZBufferTest then zBufferTest s x y z else (s, true))
             = (s1, pass)
             /\ width s1 = width s /\ height s1 = height s
             /\ length (zBuf s1) = length (zBuf s)
             /\ resetZBuffer s1 = resetZBuffer s /\ resetBuffer32 s1 = resetBuffer32 s
             /\ framebuffer s1 = framebuffer s /\ dirtyRect s1 = dirtyRect s).
  { destruct (enabled doZBufferTest).
    - pose proof (zBufferTest_fields s x y z) as Hf. cbn zeta in Hf.
      destruct (zBufferTest s x y z) as [s1 pass]. now exists s1, pass.
    - exists s, true. auto 10. }
  destruct Hpre as (s1 & pass & -> & Hw & Hh & Hz & Hrz & Hr32 & Hfb & Hd).
  assert (Halloc1 : allocated s1).
  { unfold allocated in *. rewrite Hw, Hh, Hz, Hrz, Hr32, Hfb. exact Halloc. }
  assert (Hcanvas1 : in_canvas s1).
  { unfold in_canvas in *. rewrite Hw, Hh, Hd. exact Hcanvas. }
  destruct pass; cbn [negb]; [| now split].
  destruct (enabled adjustDirtyRect).
  - split.
    + unfold allocated in *. cbn. now rewrite length_write_pixel.
    + unfold in_canvas in *. cbn.
      apply adjustDirtyRectangle_in_canvas; [lia | lia | exact Hcanvas1].
  - split.
    + unfold allocated in *. destruct s1; cbn in *. now rewrite length_write_pixel.
    + unfold in_canvas in *. now destruct s1.
Qed.

Lemma reset_invariant (s s' : State) (r : option ClearRect.t) :
  allocated s -> in_canvas s -> reset s = Some (s', r) ->
  allocated s' /\ in_canvas s'.
Proof.
  intros Halloc Hcanvas Hreset.
  rewrite (reset_unfold s Halloc Hcanvas) in Hreset. cbn zeta in Hreset.
  destruct (corners_in_range s Hcanvas) as [Hfirst Hlast]. cbn zeta in *.
  destruct Halloc as (Hz & Hrz & Hr32 & Hfb).
  destruct Hcanvas as (Hx & Hxm & Hy & Hym).
  destruct (_ <? _) eqn:Hlt in Hreset; inversion Hreset; subst s' r; clear Hreset.
  - apply Z.ltb_lt in Hlt. split.
    + unfold allocated. cbn.
      rewrite !length_copy; rewrite ?length_bytes; lia.
    + unfold in_canvas. cbn. lia.
  - split.
    + unfold allocated. cbn. auto.
    + unfold in_canvas. cbn. lia.
Qed.

Lemma init_invariant (ctx : Ctx.t) (bg : option (list Z))
    (s : State) (r : option ClearRect.t) :
  1 <= Ctx.width ctx -> 1 <= Ctx.height ctx ->
  length (Ctx.data ctx) = Z.to_nat (Ctx.width ctx * Ctx.height ctx * 4) ->
  init ctx bg = Some (s, r) -> allocated s /\ in_canvas s.
Proof.
  intros Hw Hh Hdata Hinit.
  exact (reset_invariant _ _ _ (allocated_init_state ctx bg Hdata)
           (in_canvas_init_state ctx bg Hw Hh) Hinit).
Qed.

(** ** Write, then reset *)

(** X12: From the state a [reset] leaves (empty dirty rectangle), one [set] with
    both flags left out whose depth test passes is followed by a [reset]
    that returns nothing and hands back the state of the write, only the
    dirty rectangle being emptied again: the colour and the depth just
    written stay, for every pixel of every canvas. *)
Lemma set_then_reset_keeps_write (s : State) (x y : Z) (z : float) (color : Color) :
  dirtyRect s = resetDirtyRect (width s) (height s) ->
  0 <= x < width s -> 0 <= y < height s ->
  snd (zBufferTest s x y z) = true ->
  reset (set s x y z color None None)
  = Some (set_dirtyRect (set s x y z color None None)
                        (resetDirtyRect (width s) (height s)),
          None).
Proof.
  intros Hempty Hx Hy Hpass. unfold set.
  destruct (Z.ltb_spec x 0); [lia |].
  destruct (Z.ltb_spec y 0); [lia |].
  destruct (Z.leb_spec (width s) x); [lia |].
  destruct (Z.leb_spec (height s) y); [lia |]. cbn [orb enabled].
  pose proof (zBufferTest_fields s x y z) as Hf. cbn zeta in Hf.
  destruct (zBufferTest s x y z) as [s1 pass]. cbn [fst snd] in *.
  destruct Hf as (Hw & Hh & _ & _ & _ & _ & Hd).
  subst pass. cbn [negb]. unfold reset. cbn.
  rewrite Hw, Hh, Hd, Hempty.
  pose proof (first_point_linearly_empty (width s) (height s) x y Hx Hy) as Hlin.
  cbn zeta in Hlin. rewrite Hlin. reflexivity.
Qed.

(** * Further properties of the code *)

(** ** Dirty rectangle: what a run of points gives *)

(** X1: Added to a rectangle that is not inverted, a point yields the bounding
    box of the rectangle and the point. *)
Theorem adjustDirtyRectangle_bounding_box (d : DirtyRect.t) (x y : Z) :
  DirtyRect.x d <= DirtyRect.xMax d -> DirtyRect.y d <= DirtyRect.yMax d ->
  adjustDirtyRectangle d x y
  = DirtyRect.mk (Z.min (DirtyRect.x d) x) (Z.min (DirtyRect.y d) y)
                 (Z.max (DirtyRect.xMax d) x) (Z.max (DirtyRect.yMax d) y).
Proof.
  destruct d as [dx dy dxm dym]. unfold adjustDirtyRectangle. simpl. intros Hx Hy.
  destruct (Z.ltb_spec x dx); [| destruct (Z.ltb_spec dxm x)]; simpl;
    (destruct (Z.ltb_spec y dy); [| destruct (Z.ltb_spec dym y)]); simpl;
    f_equal; lia.
Qed.

Lemma adjustDirtyRectangle_bounding_box_witness :
  adjustDirtyRectangle (DirtyRect.mk 2 2 3 3) 1 5 = DirtyRect.mk 1 2 3 5.
Proof.
  apply (adjustDirtyRectangle_bounding_box (DirtyRect.mk 2 2 3 3) 1 5);
    vm_compute; discriminate.
Defined.

(** The minimum bounds after one call, whatever the rectangle was. *)
Lemma adjustDirtyRectangle_min (d : DirtyRect.t) (x y : Z) :
  DirtyRect.x (adjustDirtyRectangle d x y) = Z.min (DirtyRect.x d) x
  /\ DirtyRect.y (adjustDirtyRectangle d x y) = Z.min (DirtyRect.y d) y.
Proof.
  destruct d as [dx dy dxm dym]. unfold adjustDirtyRectangle. simpl.
  destruct (Z.ltb_spec x dx); [| destruct (Z.ltb_spec dxm x)]; simpl;
    (destruct (Z.ltb_spec y dy); [| destruct (Z.ltb_spec dym y)]); simpl; lia.
Qed.

(** X3: Over any run from any rectangle, inverted or not, the minimum corner
    ends at or below every point of the run: only the maximum bounds can
    miss a point. *)
Theorem adjust_all_min_corner (pts : list (Z * Z)) (d : DirtyRect.t) :
  Forall (fun p => DirtyRect.x (adjust_all d pts) <= fst p
                   /\ DirtyRect.y (adjust_all d pts) <= snd p) pts.
Proof.
  unfold adjust_all.
  assert (Hgen : forall pts d,
             DirtyRect.x (foldl (fun d p => adjustDirtyRectangle d (fst p) (snd p)) d pts)
               <= DirtyRect.x d
             /\ DirtyRect.y (foldl (fun d p => adjustDirtyRectangle d (fst p) (snd p)) d pts)
               <= DirtyRect.y d).
  { clear. induction pts as [| [px py] pts IH]; intros d; cbn; [lia |].
    specialize (IH (adjustDirtyRectangle d px py)).
    pose proof (adjustDirtyRectangle_min d px py). lia. }
  revert d. induction pts as [| [px py] pts IH]; intros d; cbn; constructor.
  - specialize (Hgen pts (adjustDirtyRectangle d px py)).
    pose proof (adjustDirtyRectangle_min d px py). cbn. lia.
  - apply IH.
Qed.

(** X2: Over any run from a rectangle that is not inverted, the final rectangle
    covers every point of the run. *)
Theorem adjust_all_covers (pts : list (Z * Z)) (d : DirtyRect.t) :
  DirtyRect.x d <= DirtyRect.xMax d -> DirtyRect.y d <= DirtyRect.yMax d ->
  Forall (fun p =>
            DirtyRect.x (adjust_all d pts) <= fst p <= DirtyRect.xMax (adjust_all d pts)
            /\ DirtyRect.y (adjust_all d pts) <= snd p <= DirtyRect.yMax (adjust_all d pts))
         pts.
Proof.
  unfold adjust_all.
  assert (Hgen : forall pts d,
             let d' := foldl (fun d p => adjustDirtyRectangle d (fst p) (snd p)) d pts in
             DirtyRect.x d' <= DirtyRect.x d /\ DirtyRect.y d' <= DirtyRect.y d
             /\ DirtyRect.xMax d <= DirtyRect.xMax d'
             /\ DirtyRect.yMax d <= DirtyRect.yMax d').
  { clear. induction pts as [| [px py] pts IH]; intros d; cbn; [lia |].
    specialize (IH (adjustDirtyRectangle d px py)). cbn in IH.
    pose proof (adjustDirtyRectangle_outward d px py) as Hstep. cbn in Hstep.
    lia. }
  revert d. induction pts as [| [px py] pts IH]; intros d Hx Hy; cbn; constructor.
  - pose proof (Hgen pts (adjustDirtyRectangle d px py)) as Hrest. cbn in Hrest.
    pose proof (adjustDirtyRectangle_covers d px py Hx Hy) as Hstep. cbn in Hstep.
    cbn. lia.
  - pose proof (adjustDirtyRectangle_covers d px py Hx Hy) as Hstep. cbn in Hstep.
    apply IH; lia.
Qed.

Lemma adjust_all_covers_witness :
  Forall (fun p =>
            DirtyRect.x (adjust_all (DirtyRect.mk 2 2 2 2) [(0, 3); (3, 1)]) <= fst p
              <= DirtyRect.xMax (adjust_all (DirtyRect.mk 2 2 2 2) [(0, 3); (3, 1)])
            /\ DirtyRect.y (adjust_all (DirtyRect.mk 2 2 2 2) [(0, 3); (3, 1)]) <= snd p
              <= DirtyRect.yMax (adjust_all (DirtyRect.mk 2 2 2 2) [(0, 3); (3, 1)]))
         [(0, 3); (3, 1)].
Proof.
  apply (adjust_all_covers [(0, 3); (3, 1)] (DirtyRect.mk 2 2 2 2));
    vm_compute; discriminate.
Defined.

(** ** Pixel write: what [set] stores and what it leaves *)

Lemma zBufferTest_rejected (s : State) (x y : Z) (z : float) :
  snd (zBufferTest s x y z) = false -> fst (zBufferTest s x y z) = s.
Proof.
  unfold zBufferTest.
  destruct (Js.get (zBuf s) (y * width s + x)) as [stored |];
    [destruct (PrimFloat.ltb stored (PrimFloat.add z 10)) |]; cbn;
    intros H; (discriminate H || reflexivity).
Qed.

(** X4: A fragment whose depth test is asked for and fails changes nothing:
    not the colour, not the depth, not the dirty rectangle. *)
Theorem set_rejected (s : State) (x y : Z) (z : float) (color : Color)
    (doZBufferTest adjustDirtyRect : option bool) :
  enabled doZBufferTest = true -> snd (zBufferTest s x y z) = false ->
  set s x y z color doZBufferTest adjustDirtyRect = s.
Proof.
  intros Hflag Hfail. unfold set. rewrite Hflag.
  destruct ((x <? 0) || (y <? 0) || (width s <=? x) || (height s <=? y));
    [reflexivity |].
  pose proof (zBufferTest_rejected s x y z Hfail) as Hsame.
  destruct (zBufferTest s x y z) as [s1 pass]. cbn in *. subst. reflexivity.
Qed.

Lemma set_rejected_witness :
  set (init_state (blank 4 4) None) 1 1 (-20)%float {| rgbaShaded := [1; 2; 3; 4]%float |}
      None None
  = init_state (blank 4 4) None.
Proof. apply set_rejected; reflexivity. Defined.

Lemma get_write_pixel_other (fb : list Z) (index j : Z) (rgba : list float) :
  j < index \/ index + 3 < j ->
  Js.get (write_pixel fb index rgba) j = Js.get fb j.
Proof.
  intros Hj. unfold write_pixel.
  rewrite !get_put_other by lia. reflexivity.
Qed.

Lemma get_write_pixel (fb : list Z) (index : Z) (rgba : list float) (k : nat) :
  0 <= index -> index + 3 < Z.of_nat (length fb) -> (k < 4)%nat ->
  Js.get (write_pixel fb index rgba) (index + Z.of_nat k)
  = Some (Num.clamp_byte (Num.channel rgba k)).
Proof.
  intros Hlo Hhi Hk. unfold write_pixel.
  destruct k as [| [| [| [| k]]]]; [| | | | lia]; cbn [Z.of_nat];
    rewrite ?Z.add_0_r;
    rewrite ?get_put_other by lia; cbn;
    rewrite get_put_same; rewrite ?length_put; (reflexivity || lia).
Qed.

(** X5: A fragment inside the canvas that is not held back by the depth test
    (the test passes, or it is switched off) ends with its four channels in
    the pixel's four bytes, each as the clamped byte array keeps a number
    (rounded to the nearest integer, ties to even, clamped to 0..255, [NaN]
    and a missing channel 0), and with every other byte of the frame buffer
    as it was. *)
Theorem set_writes_pixel (s : State) (x y : Z) (z : float) (color : Color)
    (doZBufferTest adjustDirtyRect : option bool) :
  length (framebuffer s) = Z.to_nat (width s * height s * 4) ->
  0 <= x < width s -> 0 <= y < height s ->
  enabled doZBufferTest = false \/ snd (zBufferTest s x y z) = true ->
  let s' := set s x y z color doZBufferTest adjustDirtyRect in
  pixel s' x y
  = [Some (Num.clamp_byte (Num.channel (rgbaShaded color) 0));
     Some (Num.clamp_byte (Num.channel (rgbaShaded color) 1));
     Some (Num.clamp_byte (Num.channel (rgbaShaded color) 2));
     Some (Num.clamp_byte (Num.channel (rgbaShaded color) 3))]
  /\ forall j, j < (y * width s + x) * 4 \/ (y * width s + x) * 4 + 3 < j ->
       Js.get (framebuffer s') j = Js.get (framebuffer s) j.
Proof.
  intros Hlen Hx Hy Hgo. cbn zeta.
  pose proof (index_in_range _ _ _ _ Hx Hy) as Hidx.
  assert (Hform : exists s2,
             set s x y z color doZBufferTest adjustDirtyRect
             = set_framebuffer s2
                 (write_pixel (framebuffer s2) ((y * width s2 + x) * 4)
                              (rgbaShaded color))
             /\ width s2 = width s /\ framebuffer s2 = framebuffer s).
  { unfold set.
    destruct (Z.ltb_spec x 0); [lia |].
    destruct (Z.ltb_spec y 0); [lia |].
    destruct (Z.leb_spec (width s) x); [lia |].
    destruct (Z.leb_spec (height s) y); [lia |]. cbn [orb].
    pose proof (zBufferTest_fields s x y z) as Hf. cbn zeta in Hf.
    assert (Hpre : exists s1,
               (if enabled doZBufferTest then zBufferTest s x y z else (s, true))
               = (s1, true)
               /\ width s1 = width s /\ framebuffer s1 = framebuffer s).
    { destruct (enabled doZBufferTest).
      - destruct Hgo as [Hoff | Hpass]; [discriminate |].
        destruct (zBufferTest s x y z) as [s1 pass]. cbn in *. subst pass.
        exists s1. intuition.
      - exists s. auto. }
    destruct Hpre as (s1 & -> & Hw1 & Hfb1). cbn [negb].
    destruct (enabled adjustDirtyRect); eexists; (split; [reflexivity |]);
      cbn; auto. }
  destruct Hform as (s2 & -> & Hw & Hfb). unfold pixel. cbn. rewrite Hw, Hfb.
  set (index := (y * width s + x) * 4).
  assert (Hlo : 0 <= index) by (unfold index; lia).
  assert (Hhi : index + 3 < Z.of_nat (length (framebuffer s)))
    by (unfold index; lia).
  split.
  - pose proof (get_write_pixel (framebuffer s) index (rgbaShaded color) 0
                  Hlo Hhi ltac:(lia)) as H0.
    pose proof (get_write_pixel (framebuffer s) index (rgbaShaded color) 1
                  Hlo Hhi ltac:(lia)) as H1.
    pose proof (get_write_pixel (framebuffer s) index (rgbaShaded color) 2
                  Hlo Hhi ltac:(lia)) as H2.
    pose proof (get_write_pixel (framebuffer s) index (rgbaShaded color) 3
                  Hlo Hhi ltac:(lia)) as H3.
    change (Z.of_nat 0) with 0 in H0. change (Z.of_nat 1) with 1 in H1.
    change (Z.of_nat 2) with 2 in H2. change (Z.of_nat 3) with 3 in H3.
    rewrite Z.add_0_r in H0. rewrite H0, H1, H2, H3. reflexivity.
  - intros j Hj. apply get_write_pixel_other. exact Hj.
Qed.

Lemma set_writes_pixel_witness :
  pixel (set (init_state (blank 4 4) None) 1 2 5%float
             {| rgbaShaded := [1.5; 2.5; 254.75; -0.25]%float |} None (Some false))
        1 2
  = [Some 2; Some 2; Some 255; Some 0].
Proof.
  refine (proj1 (set_writes_pixel (init_state (blank 4 4) None) 1 2 5%float
                   {| rgbaShaded := [1.5; 2.5; 254.75; -0.25]%float |}
                   None (Some false) _ _ _ _)).
  - reflexivity.
  - vm_compute. split; [discriminate | reflexivity].
  - vm_compute. split; [discriminate | reflexivity].
  - right. reflexivity.
Defined.

(** X6: With the depth test switched off [set] leaves the z-buffer as it was,
    and with the dirty-rectangle update switched off it leaves the dirty
    rectangle as it was, wherever the pixel lies. *)
Theorem set_flags_off (s : State) (x y : Z) (z : float) (color : Color)
    (flag : option bool) :
  zBuf (set s x y z color (Some false) flag) = zBuf s
  /\ dirtyRect (set s x y z color flag (Some false)) = dirtyRect s.
Proof.
  unfold set.
  destruct ((x <? 0) || (y <? 0) || (width s <=? x) || (height s <=? y));
    [split; reflexivity |].
  split.
  - cbn. destruct (enabled flag); reflexivity.
  - pose proof (zBufferTest_fields s x y z) as Hf. cbn zeta in Hf.
    destruct (enabled flag); [| reflexivity].
    destruct (zBufferTest s x y z) as [s1 pass]. cbn in *.
    destruct pass; cbn; tauto.
Qed.

(** ** Reset: what is copied, when it fails, and resetting twice *)

Lemma reset_depth_cells_witness :
  exists s' r,
    reset (init_state (blank 4 4) None) = Some (s', r)
    /\ Js.get (zBuf s') 3 = Some maxDistance
    /\ Js.get (zBuf s') 15 = Some 0%float.
Proof.
  destruct (reset (init_state (blank 4 4) None)) as [[s' r] |] eqn:Hreset;
    [| vm_compute in Hreset; discriminate Hreset].
  exists s', r. split; [reflexivity |].
  assert (Halloc : allocated (init_state (blank 4 4) None)) by (repeat split).
  assert (Hcanvas : in_canvas (init_state (blank 4 4) None))
    by (vm_compute; repeat split; discriminate).
  split.
  - rewrite (reset_depth_cells _ _ _ 3 Halloc Hcanvas Hreset). reflexivity.
  - rewrite (reset_depth_cells _ _ _ 15 Halloc Hcanvas Hreset). reflexivity.
Defined.

(** Reading a typed array after a block copy into it. *)
Lemma get_copy {A} (dst src : list A) (off n i : Z) :
  0 <= off -> 0 <= n -> off + n <= Z.of_nat (length dst) ->
  n <= Z.of_nat (length src) ->
  Js.get (Js.copy dst off src n) i
  = if (off <=? i) && (i <? off + n) then Js.get src (i - off) else Js.get dst i.
Proof.
  intros Hoff Hn Hdst Hsrc. unfold Js.copy, Js.get.
  destruct (Z.leb_spec off i) as [Hlo | Hlo];
    destruct (Z.ltb_spec i (off + n)) as [Hhi | Hhi]; cbn [andb];
    destruct (Z.ltb_spec i 0) as [Hi0 | Hi0]; try lia; try reflexivity.
  - destruct (Z.ltb_spec (i - off) 0); [lia |].
    rewrite lookup_app_r; rewrite length_take; [| lia].
    rewrite lookup_app_l by (rewrite length_take; lia).
    rewrite lookup_take_lt by lia. f_equal. lia.
  - rewrite lookup_app_r; rewrite length_take; [| lia].
    rewrite lookup_app_r; rewrite length_take; [| lia].
    rewrite lookup_drop. f_equal. lia.
  - rewrite lookup_app_l by (rewrite length_take; lia).
    apply lookup_take_lt. lia.
Qed.

(** X8: What [reset] does to the frame buffer: the bytes of the pixels whose
    linear index lies from the minimum corner up to, and not including, the
    maximum corner take the bytes at the start of the colour template;
    every other byte keeps its value. *)
Theorem reset_color_bytes (s s' : State) (r : option ClearRect.t) (j : Z) :
  allocated s -> in_canvas s -> reset s = Some (s', r) ->
  let d := dirtyRect s in
  let first := DirtyRect.y d * width s + DirtyRect.x d in
  let last := DirtyRect.yMax d * width s + DirtyRect.xMax d in
  Js.get (framebuffer s') j =
    if (first * 4 <=? j) && (j <? last * 4)
    then Js.get (Js.bytes (resetBuffer32 s)) (j - first * 4)
    else Js.get (framebuffer s) j.
Proof.
  intros Halloc Hcanvas Hreset.
  rewrite (reset_unfold s Halloc Hcanvas) in Hreset. cbn zeta in *.
  destruct (corners_in_range s Hcanvas) as [Hfirst Hlast]. cbn zeta in *.
  destruct Halloc as (_ & _ & Hr32 & Hfb).
  set (first := DirtyRect.y (dirtyRect s) * width s + DirtyRect.x (dirtyRect s)) in *.
  set (last := DirtyRect.yMax (dirtyRect s) * width s + DirtyRect.xMax (dirtyRect s)) in *.
  destruct (Z.ltb_spec first last) as [Hlt | Hge];
    inversion Hreset; subst s' r; clear Hreset; cbn.
  - rewrite get_copy; rewrite ?length_bytes; try lia.
    replace (first * 4 + (last * 4 - first * 4)) with (last * 4) by lia.
    reflexivity.
  - destruct (Z.leb_spec (first * 4) j); destruct (Z.ltb_spec j (last * 4));
      cbn [andb]; try reflexivity; lia.
Qed.

Lemma reset_color_bytes_witness :
  exists s' r,
    reset (init_state (blank 4 4) (Some [10; 20; 30])) = Some (s', r)
    /\ Js.get (framebuffer s') 5 = Some 20
    /\ Js.get (framebuffer s') 61 = Some 0.
Proof.
  destruct (reset (init_state (blank 4 4) (Some [10; 20; 30])))
    as [[s' r] |] eqn:Hreset; [| vm_compute in Hreset; discriminate Hreset].
  exists s', r. split; [reflexivity |].
  assert (Halloc : allocated (init_state (blank 4 4) (Some [10; 20; 30])))
    by (repeat split).
  assert (Hcanvas : in_canvas (init_state (blank 4 4) (Some [10; 20; 30])))
    by (vm_compute; repeat split; discriminate).
  split.
  - rewrite (reset_color_bytes _ _ _ 5 Halloc Hcanvas Hreset). reflexivity.
  - rewrite (reset_color_bytes _ _ _ 61 Halloc Hcanvas Hreset). reflexivity.
Defined.

(** X9: When [reset] raises: with buffers of the canvas' size it fails exactly
    when the linear span it is about to copy is not empty and leaves the
    buffers, at the front (negative start) or at the back (end beyond the
    last cell). *)
Theorem reset_fails_iff (s : State) :
  allocated s -> 0 <= width s * height s ->
  let d := dirtyRect s in
  let first := DirtyRect.y d * width s + DirtyRect.x d in
  let last := DirtyRect.yMax d * width s + DirtyRect.xMax d in
  reset s = None <-> first < last /\ (first < 0 \/ width s * height s < last).
Proof.
  intros (Hz & Hrz & Hr32 & Hfb) Hsize. cbn zeta. unfold reset.
  set (first := DirtyRect.y (dirtyRect s) * width s + DirtyRect.x (dirtyRect s)).
  set (last := DirtyRect.yMax (dirtyRect s) * width s + DirtyRect.xMax (dirtyRect s)).
  destruct (Z.ltb_spec first last) as [Hlt | Hge];
    [| split; [discriminate | lia]].
  unfold Js.view_ok.
  rewrite Z.mod_mul, !Z.mod_1_r, Z.mod_0_l by lia.
  change (0 =? 0) with true. change (0 <=? 0) with true. cbn [andb].
  destruct (Z.leb_spec 0 (first * 4)) as [H0 | H0]; cbn [andb];
    [| split; [lia | reflexivity]].
  destruct (Z.leb_spec 0 (last - first)); [| lia]. cbn [andb].
  destruct (Z.leb_spec (first * 4 + (last - first) * 4)
                       (4 * Z.of_nat (length (zBuf s)))) as [H1 | H1]; cbn [andb];
    [| split; [lia | reflexivity]].
  destruct (Z.leb_spec (0 + (last - first) * 4)
                       (4 * Z.of_nat (length (resetZBuffer s)))); [| lia].
  cbn [andb].
  destruct (Z.leb_spec 0 (last * 4 - first * 4)); [| lia]. cbn [andb].
  destruct (Z.leb_spec (first * 4 + (last * 4 - first * 4) * 1)
                       (Z.of_nat (length (framebuffer s)))); [| lia].
  destruct (Z.leb_spec (0 + (last * 4 - first * 4) * 1)
                       (4 * Z.of_nat (length (resetBuffer32 s)))); [| lia].
  cbn [andb]. split; [discriminate | lia].
Qed.

Lemma reset_fails_iff_witness :
  reset (set_dirtyRect (init_state (blank 4 4) None) (DirtyRect.mk 0 0 9 9)) = None.
Proof.
  apply (reset_fails_iff
           (set_dirtyRect (init_state (blank 4 4) None) (DirtyRect.mk 0 0 9 9))).
  - repeat split.
  - vm_compute. discriminate.
  - vm_compute. split; [reflexivity | right; reflexivity].
Defined.

(** X10: A second [reset] straight after a first returns nothing and hands back
    the state it got: on a canvas of at least one pixel the empty rectangle
    is never taken for dirty. *)
Theorem reset_twice (s s' : State) (r : option ClearRect.t) :
  1 <= width s -> 1 <= height s ->
  reset s = Some (s', r) -> reset s' = Some (s', None).
Proof.
  intros Hw Hh Hreset.
  assert (Hs' : width s' = width s /\ height s' = height s
                /\ dirtyRect s' = resetDirtyRect (width s) (height s)).
  { unfold reset in Hreset.
    repeat match type of Hreset with
           | (if ?c then _ else _) = _ => destruct c
           end; inversion Hreset; subst; cbn; auto. }
  destruct Hs' as (Hw' & Hh' & Hd').
  unfold reset. rewrite Hw', Hh', Hd'. cbn.
  destruct (Z.ltb_spec ((height s - 1) * width s + (width s - 1))
                       (0 * width s + 0)) as [Hneg | _]; [nia |].
  f_equal. f_equal. destruct s'. cbn in *. now subst.
Qed.

Lemma reset_twice_witness :
  exists s' r,
    reset (init_state (blank 4 4) None) = Some (s', r)
    /\ reset s' = Some (s', None).
Proof.
  destruct (reset (init_state (blank 4 4) None)) as [[s' r] |] eqn:Hreset;
    [| vm_compute in Hreset; discriminate Hreset].
  exists s', r. split; [reflexivity |].
  apply (reset_twice (init_state (blank 4 4) None) s' r);
    [vm_compute; discriminate | vm_compute; discriminate | exact Hreset].
Defined.

Lemma set_then_reset_keeps_write_witness :
  reset (set (set_dirtyRect (init_state (blank 4 4) None) (resetDirtyRect 4 4))
             2 1 5%float {| rgbaShaded := [1; 2; 3; 4]%float |} None None)
  = Some (set_dirtyRect
            (set (set_dirtyRect (init_state (blank 4 4) None) (resetDirtyRect 4 4))
                 2 1 5%float {| rgbaShaded := [1; 2; 3; 4]%float |} None None)
            (resetDirtyRect 4 4),
          None).
Proof.
  apply (set_then_reset_keeps_write
           (set_dirtyRect (init_state (blank 4 4) None) (resetDirtyRect 4 4))
           2 1 5%float {| rgbaShaded := [1; 2; 3; 4]%float |}).
  - reflexivity.
  - vm_compute. split; [discriminate | reflexivity].
  - vm_compute. split; [discriminate | reflexivity].
  - reflexivity.
Defined.

(** ** Initialisation: the background colour and the templates *)

(** A property of bytes checked on each of the 256 bytes. *)
Lemma for_all_bytes (P : Z -> bool) :
  forallb P (seqZ 0 256) = true -> forall c, 0 <= c <= 255 -> P c = true.
Proof.
  intros Hall c Hc. rewrite forallb_forall in Hall. apply Hall.
  apply list_elem_of_In, elem_of_seqZ. lia.
Qed.

Lemma ToInt32_mod (n : Z) : Js.ToInt32 n mod 2 ^ 32 = n mod 2 ^ 32.
Proof.
  unfold Js.ToInt32. destruct (2 ^ 31 <=? n mod 2 ^ 32).
  - replace (n mod 2 ^ 32 - 2 ^ 32) with (n mod 2 ^ 32 + (-1) * 2 ^ 32) by lia.
    rewrite Z.mod_add by lia. apply Z.mod_mod. lia.
  - apply Z.mod_mod. lia.
Qed.

Lemma lor_mod (x y : Z) :
  Z.lor x y mod 2 ^ 32 = Z.lor (x mod 2 ^ 32) (y mod 2 ^ 32).
Proof.
  rewrite <- !Z.land_ones by lia. apply Z.land_lor_distr_l.
Qed.

(** [x | y], kept in a [Uint32Array]. *)
Lemma ToUint32_bor (x y : Z) :
  Js.ToUint32 (Js.bor x y) = Z.lor (Js.ToUint32 x) (Js.ToUint32 y).
Proof.
  unfold Js.ToUint32, Js.bor. now rewrite ToInt32_mod, lor_mod, !ToInt32_mod.
Qed.

Lemma word_bytes_lor (x y : Z) :
  Js.word_bytes (Z.lor x y)
  = zip_with Z.lor (Js.word_bytes x) (Js.word_bytes y).
Proof.
  unfold Js.word_bytes. cbn [zip_with].
  now rewrite !Z.shiftr_lor, !Z.land_lor_distr_l.
Qed.

Lemma word_bytes_channels (c : Z) :
  0 <= c <= 255 ->
  Js.word_bytes (Js.ToUint32 c) = [c; 0; 0; 0]
  /\ Js.word_bytes (Js.ToUint32 (Js.shl c 8)) = [0; c; 0; 0]
  /\ Js.word_bytes (Js.ToUint32 (Js.shl c 16)) = [0; 0; c; 0]
  /\ Js.word_bytes (Js.ToUint32 (Js.shl c 24)) = [0; 0; 0; c].
Proof.
  intros Hc.
  assert (Hall : forallb
                   (fun c => bool_decide
                      (Js.word_bytes (Js.ToUint32 c) = [c; 0; 0; 0]
                       /\ Js.word_bytes (Js.ToUint32 (Js.shl c 8)) = [0; c; 0; 0]
                       /\ Js.word_bytes (Js.ToUint32 (Js.shl c 16)) = [0; 0; c; 0]
                       /\ Js.word_bytes (Js.ToUint32 (Js.shl c 24)) = [0; 0; 0; c]))
                   (seqZ 0 256) = true) by (vm_compute; reflexivity).
  pose proof (for_all_bytes _ Hall c Hc) as Hbyte. cbv beta in Hbyte.
  now apply bool_decide_eq_true in Hbyte.
Qed.

Lemma packed_bgcolor_bytes (r g b a : Z) :
  0 <= r <= 255 -> 0 <= g <= 255 -> 0 <= b <= 255 -> 0 <= a <= 255 ->
  Js.word_bytes (packed_bgcolor r g b a) = [r; g; b; a].
Proof.
  intros Hr Hg Hb Ha. unfold packed_bgcolor.
  rewrite !ToUint32_bor, !word_bytes_lor.
  destruct (word_bytes_channels r Hr) as (-> & _).
  destruct (word_bytes_channels g Hg) as (_ & -> & _).
  destruct (word_bytes_channels b Hb) as (_ & _ & -> & _).
  destruct (word_bytes_channels a Ha) as (_ & _ & _ & ->).
  cbn. now rewrite !Z.lor_0_r, !Z.lor_0_l.
Qed.

(** The numeric conversions are kept folded while the templates are
    compared: unfolding them multiplies the packed word's term. *)
Opaque Js.ToInt32 Js.ToUint32 Js.bor Js.shl.

Lemma initResetBuffer_unfold (bg : list Z) (bufSize zBufSize : Z) :
  initResetBuffer bg bufSize zBufSize
  = (replicate (Z.to_nat (bufSize / 4))
               (packed_bgcolor (Js.num_at bg 0) (Js.num_at bg 1)
                               (Js.num_at bg 2) (Js.num_at bg 3)),
     replicate (Z.to_nat zBufSize) (Js.fround maxDistance)).
Proof. reflexivity. Qed.

(** X13: The colour template packs the four channels so that, read back byte by
    byte, each word gives red, green, blue, alpha in this order, provided
    every channel is a byte. *)
Theorem initResetBuffer_word_bytes (r g b a bufSize zBufSize : Z) :
  0 <= r <= 255 -> 0 <= g <= 255 -> 0 <= b <= 255 -> 0 <= a <= 255 ->
  Forall (fun word => Js.word_bytes word = [r; g; b; a])
         (fst (initResetBuffer [r; g; b; a] bufSize zBufSize)).
Proof.
  intros Hr Hg Hb Ha. rewrite initResetBuffer_unfold. cbn [fst].
  apply Forall_replicate.
  exact (packed_bgcolor_bytes r g b a Hr Hg Hb Ha).
Qed.

Lemma initResetBuffer_word_bytes_witness :
  Forall (fun word => Js.word_bytes word = [10; 20; 30; 255])
         (fst (initResetBuffer [10; 20; 30; 255] 64 16)).
Proof.
  apply (initResetBuffer_word_bytes 10 20 30 255 64 16);
    vm_compute; split; discriminate.
Defined.

Lemma array_put_next (acc : list Z) (i : nat) (v : Z) :
  (i <= length acc)%nat ->
  Js.array_put acc i v = take i acc ++ v :: drop (S i) acc.
Proof.
  intros Hi. unfold Js.array_put.
  destruct (Nat.ltb_spec i (length acc)) as [Hlt | Hge].
  - now apply insert_take_drop.
  - replace (i - length acc)%nat with 0%nat by lia. cbn [replicate app].
    rewrite take_ge, drop_ge by lia. reflexivity.
Qed.

(** The copying loop of [init], from index [a] on. *)
Lemma copy_channels (c : list Z) (n a : nat) (acc : list Z) :
  (a <= length acc)%nat -> (a + n <= length c)%nat ->
  foldl (fun acc i => Js.array_put acc i (Js.num_at c i)) acc (seq a n)
  = take a acc ++ take n (drop a c) ++ drop (a + n) acc.
Proof.
  revert a acc. induction n as [| n IH]; intros a acc Ha Hc.
  - cbn [seq foldl]. rewrite Nat.add_0_r, take_0. cbn [app].
    symmetry. apply take_drop.
  - cbn [seq foldl]. rewrite (array_put_next acc a _ Ha).
    rewrite IH; [| rewrite length_app, length_take; cbn [length]; lia | lia].
    destruct (lookup_lt_is_Some_2 c a ltac:(lia)) as [v Hv].
    unfold Js.num_at. rewrite Hv. cbn [default].
    rewrite (drop_S c v a Hv).
    rewrite take_app, drop_app, length_take.
    replace (a `min` length acc)%nat with a by lia.
    rewrite take_take. replace (S a `min` a)%nat with a by lia.
    replace (S a - a)%nat with 1%nat by lia.
    replace (S a + n - a)%nat with (S n) by lia.
    rewrite (drop_ge (take a acc)) by (rewrite length_take; lia).
    cbn [take drop app]. rewrite drop_drop, <- app_assoc. cbn [app].
    replace (S a + n)%nat with (a + S n)%nat by lia. reflexivity.
Qed.

(** X14: The background colour [init] resolves from a given array: the given
    channels in their order, the loaded defaults (255) in the places the
    array does not reach, and 255 at index 3 whatever was given there.  A
    three-element [(r, g, b)] gives [(r, g, b, 255)]; a fifth and later
    elements are kept behind the alpha. *)
Theorem resolve_bgColor_given (c : list Z) :
  resolve_bgColor bgColor0 (Some c)
  = <[3%nat := 255]> (c ++ drop (length c) bgColor0).
Proof.
  unfold resolve_bgColor.
  rewrite (copy_channels c (length c) 0 bgColor0) by (cbn; lia).
  rewrite take_0, drop_0. cbn [app Nat.add]. rewrite (take_ge c) by lia.
  unfold Js.array_put.
  destruct (Nat.ltb_spec 3 (length (c ++ drop (length c) bgColor0))) as [_ | Hge];
    [reflexivity |].
  exfalso. rewrite length_app, length_drop in Hge. cbn in Hge. lia.
Qed.

Lemma get_copy_inside {A} (dst src : list A) (off n i : Z) :
  0 <= off -> off + n <= Z.of_nat (length dst) -> n <= Z.of_nat (length src) ->
  off <= i < off + n ->
  Js.get (Js.copy dst off src n) i = Js.get src (i - off).
Proof.
  intros Hoff Hdst Hsrc Hi. rewrite get_copy by lia.
  destruct (Z.leb_spec off i); [| lia].
  destruct (Z.ltb_spec i (off + n)); [reflexivity | lia].
Qed.

Lemma get_copy_outside {A} (dst src : list A) (off n i : Z) :
  0 <= off -> 0 <= n -> off + n <= Z.of_nat (length dst) ->
  n <= Z.of_nat (length src) -> i < off \/ off + n <= i ->
  Js.get (Js.copy dst off src n) i = Js.get dst i.
Proof.
  intros Hoff Hn Hdst Hsrc Hi. rewrite get_copy by lia.
  destruct (Z.leb_spec off i); destruct (Z.ltb_spec i (off + n));
    cbn [andb]; (reflexivity || lia).
Qed.

(** Byte [k] of word [i] of a template filled with one word. *)
Lemma get_bytes_replicate (n : nat) (word i : Z) (k : nat) :
  0 <= i < Z.of_nat n -> (k < 4)%nat ->
  Js.get (Js.bytes (replicate n word)) (i * 4 + Z.of_nat k)
  = Js.word_bytes word !! k.
Proof.
  revert i. induction n as [| n IH]; intros i Hi Hk; [lia |].
  unfold Js.get, Js.bytes in *. cbn [replicate map concat].
  destruct (Z.ltb_spec (i * 4 + Z.of_nat k) 0); [lia |].
  destruct (Z.eq_dec i 0) as [-> | Hne].
  - replace (0 * 4 + Z.of_nat k) with (Z.of_nat k) by lia. rewrite Nat2Z.id.
    apply lookup_app_l. cbn. lia.
  - rewrite lookup_app_r by (cbn; lia).
    specialize (IH (i - 1) ltac:(lia) Hk).
    destruct (Z.ltb_spec ((i - 1) * 4 + Z.of_nat k) 0); [lia |].
    rewrite <- IH. f_equal. cbn [length Js.word_bytes]. lia.
Qed.

Lemma init_state_fields (ctx : Ctx.t) (bg : option (list Z)) (r g b a : Z) :
  resolve_bgColor bgColor0 bg = [r; g; b; a] ->
  init_state ctx bg
  = mkState (Ctx.width ctx) (Ctx.height ctx)
            (Ctx.width ctx * Ctx.height ctx * 4) (Ctx.width ctx * Ctx.height ctx)
            (Ctx.data ctx)
            (replicate (Z.to_nat (Ctx.width ctx * Ctx.height ctx)) 0%float)
            (replicate (Z.to_nat (Ctx.width ctx * Ctx.height ctx * 4 / 4))
                       (packed_bgcolor r g b a))
            (replicate (Z.to_nat (Ctx.width ctx * Ctx.height ctx)) maxDistance)
            [r; g; b; a]
            (setMaxDirtyRect (Ctx.width ctx) (Ctx.height ctx)).
Proof.
  intros Hbg. unfold init_state. rewrite initResetBuffer_unfold, Hbg.
  assert (Hmax : Js.fround maxDistance = maxDistance) by (vm_compute; reflexivity).
  rewrite Hmax. reflexivity.
Qed.

(** X15: What [init] leaves, on every canvas of at least one pixel whose image
    data has the canvas' size and for every resolved background of four
    bytes: every pixel but the last (bottom right) one holds the background
    and the sentinel depth; the last pixel keeps the bytes the canvas
    handed over and the depth 0 the z-buffer was allocated with. *)
Theorem init_buffers (ctx : Ctx.t) (bg : option (list Z)) (r g b a : Z) :
  1 <= Ctx.width ctx -> 1 <= Ctx.height ctx ->
  length (Ctx.data ctx) = Z.to_nat (Ctx.width ctx * Ctx.height ctx * 4) ->
  resolve_bgColor bgColor0 bg = [r; g; b; a] ->
  0 <= r <= 255 -> 0 <= g <= 255 -> 0 <= b <= 255 -> 0 <= a <= 255 ->
  exists s ret,
    init ctx bg = Some (s, ret)
    /\ (forall x y,
          0 <= x < Ctx.width ctx -> 0 <= y < Ctx.height ctx ->
          x < Ctx.width ctx - 1 \/ y < Ctx.height ctx - 1 ->
          pixel s x y = [Some r; Some g; Some b; Some a]
          /\ depth s x y = Some maxDistance)
    /\ pixel s (Ctx.width ctx - 1) (Ctx.height ctx - 1)
       = pixel (init_state ctx bg) (Ctx.width ctx - 1) (Ctx.height ctx - 1)
    /\ depth s (Ctx.width ctx - 1) (Ctx.height ctx - 1) = Some 0%float.
Proof.
  intros Hw Hh Hdata Hbg Hr Hg Hb Ha. unfold init.
  pose proof (reset_unfold _ (allocated_init_state ctx bg Hdata)
                (in_canvas_init_state ctx bg Hw Hh)) as Hreset.
  cbn zeta in Hreset. rewrite Hreset. clear Hreset.
  rewrite (init_state_fields ctx bg r g b a Hbg).
  cbn [width height framebuffer zBuf resetBuffer32 resetZBuffer dirtyRect
       setMaxDirtyRect DirtyRect.x DirtyRect.y DirtyRect.xMax DirtyRect.yMax].
  set (w := Ctx.width ctx) in *. set (h := Ctx.height ctx) in *.
  change (0 * w + 0) with 0.
  rewrite Z.div_mul by lia.
  set (n := Z.to_nat (w * h)).
  set (last := (h - 1) * w + (w - 1)).
  assert (Hlast : last = w * h - 1) by (unfold last; lia).
  assert (Hn : Z.of_nat n = w * h) by (unfold n; nia).
  pose proof (packed_bgcolor_bytes r g b a Hr Hg Hb Ha) as Hword.
  destruct (Z.ltb_spec 0 last) as [Hpos | Hzero]; eexists _, _;
    (split; [reflexivity |]).
  - unfold pixel, depth.
    cbn [width height framebuffer zBuf set_dirtyRect set_framebuffer set_zBuf].
    change (0 * 4) with 0. rewrite !Z.sub_0_r.
    split; [| split].
    + intros x y Hx Hy Hnot.
      assert (Hi : 0 <= y * w + x < last) by nia.
      rewrite <- (Z.add_0_r ((y * w + x) * 4)) at 1.
      rewrite !get_copy_inside;
        rewrite ?length_replicate, ?length_bytes, ?length_replicate; try lia.
      rewrite !Z.sub_0_r.
      change 0 with (Z.of_nat 0) at 1.
      change 1 with (Z.of_nat 1) at 1.
      change 2 with (Z.of_nat 2) at 1.
      change 3 with (Z.of_nat 3) at 1.
      rewrite !get_bytes_replicate by lia. rewrite Hword. cbn [lookup list_lookup].
      split; [reflexivity |].
      unfold Js.get. destruct (Z.ltb_spec (y * w + x) 0); [lia |].
      apply lookup_replicate_2. lia.
    + replace ((h - 1) * w + (w - 1)) with last by reflexivity.
      rewrite !get_copy_outside;
        rewrite ?length_replicate, ?length_bytes, ?length_replicate; try lia.
      reflexivity.
    + replace ((h - 1) * w + (w - 1)) with last by reflexivity.
      rewrite get_copy_outside; rewrite ?length_replicate; try lia.
      unfold Js.get. destruct (Z.ltb_spec last 0); [lia |].
      apply lookup_replicate_2. lia.
  - unfold pixel, depth.
    cbn [width height framebuffer zBuf set_dirtyRect].
    split; [| split].
    + intros x y Hx Hy Hnot. nia.
    + reflexivity.
    + replace ((h - 1) * w + (w - 1)) with last by reflexivity.
      unfold Js.get. destruct (Z.ltb_spec last 0); [lia |].
      apply lookup_replicate_2. lia.
Qed.

Lemma init_buffers_witness :
  exists s ret,
    init (blank 4 4) (Some [10; 20; 30]) = Some (s, ret)
    /\ (forall x y,
          0 <= x < 4 -> 0 <= y < 4 -> x < 4 - 1 \/ y < 4 - 1 ->
          pixel s x y = [Some 10; Some 20; Some 30; Some 255]
          /\ depth s x y = Some maxDistance)
    /\ pixel s (4 - 1) (4 - 1)
       = pixel (init_state (blank 4 4) (Some [10; 20; 30])) (4 - 1) (4 - 1)
    /\ depth s (4 - 1) (4 - 1) = Some 0%float.
Proof.
  apply (init_buffers (blank 4 4) (Some [10; 20; 30]) 10 20 30 255);
    try reflexivity; try (vm_compute; discriminate);
    vm_compute; split; discriminate.
Defined.

Transparent Js.ToInt32 Js.ToUint32 Js.bor Js.shl.

(** X11: A dirty rectangle that is not inverted is passed over by [reset]
    (nothing returned, nothing copied) exactly when it is a single pixel. *)
Theorem reset_skips_single_pixel (s : State) :
  allocated s -> in_canvas s ->
  DirtyRect.x (dirtyRect s) <= DirtyRect.xMax (dirtyRect s) ->
  DirtyRect.y (dirtyRect s) <= DirtyRect.yMax (dirtyRect s) ->
  reset s = Some (set_dirtyRect s (resetDirtyRect (width s) (height s)), None)
  <-> DirtyRect.x (dirtyRect s) = DirtyRect.xMax (dirtyRect s)
      /\ DirtyRect.y (dirtyRect s) = DirtyRect.yMax (dirtyRect s).
Proof.
  intros Halloc Hcanvas Hx Hy.
  rewrite (reset_unfold s Halloc Hcanvas). cbn zeta.
  destruct Hcanvas as (Hcx & Hcxm & Hcy & Hcym).
  destruct (Z.ltb_spec (DirtyRect.y (dirtyRect s) * width s + DirtyRect.x (dirtyRect s))
              (DirtyRect.yMax (dirtyRect s) * width s + DirtyRect.xMax (dirtyRect s)))
    as [Hlt | Hge].
  - split; [discriminate | intros [Hex Hey]; rewrite Hex, Hey in Hlt; lia].
  - split; [intros _; nia | reflexivity].
Qed.

Lemma reset_skips_single_pixel_witness :
  reset (set_dirtyRect (init_state (blank 4 4) None) (DirtyRect.mk 2 1 2 1))
  = Some (set_dirtyRect
            (set_dirtyRect (init_state (blank 4 4) None) (DirtyRect.mk 2 1 2 1))
            (resetDirtyRect 4 4),
          None).
Proof.
  apply (reset_skips_single_pixel
           (set_dirtyRect (init_state (blank 4 4) None) (DirtyRect.mk 2 1 2 1))).
  - repeat split.
  - vm_compute. repeat split; discriminate.
  - vm_compute. discriminate.
  - vm_compute. discriminate.
  - split; reflexivity.
Defined.

(** ** Depth visualisation: the cells after scaling *)

Lemma scale_step_lookup (min range : float) (zb : list float) (a i : nat) :
  scale_step min range zb a !! i
  = (fun v => if decide (a = i)
              then if PrimFloat.eqb v maxDistance then v
                   else Js.fround (PrimFloat.div (PrimFloat.sub v min) range)
              else v) <$> zb !! i.
Proof.
  unfold scale_step. destruct (decide (a = i)) as [-> | Hne].
  - destruct (zb !! i) as [v |] eqn:Hv; [| now rewrite Hv].
    cbn [fmap option_fmap option_map].
    destruct (PrimFloat.eqb v maxDistance) eqn:Hsent.
    + exact Hv.
    + apply list_lookup_insert_eq. now apply lookup_lt_Some in Hv.
  - destruct (zb !! a) as [va |]; [destruct (PrimFloat.eqb va maxDistance) |];
      rewrite ?list_lookup_insert_ne by exact Hne;
      destruct (zb !! i); reflexivity.
Qed.

Lemma scale_loop_lookup (min range : float) (n a : nat) (zb : list float) (i : nat) :
  foldl (scale_step min range) zb (seq a n) !! i
  = (fun v => if decide (a <= i < a + n)%nat
              then if PrimFloat.eqb v maxDistance then v
                   else Js.fround (PrimFloat.div (PrimFloat.sub v min) range)
              else v) <$> zb !! i.
Proof.
  revert a zb. induction n as [| n IH]; intros a zb; cbn [seq foldl].
  - destruct (zb !! i) as [v |]; [| reflexivity].
    cbn [fmap option_fmap option_map]. f_equal.
    destruct (decide (a <= i < a + 0)%nat); [lia | reflexivity].
  - rewrite IH, scale_step_lookup.
    destruct (zb !! i) as [v |]; [| reflexivity].
    cbn [fmap option_fmap option_map]. f_equal.
    destruct (decide (a = i)) as [-> | Hne].
    + destruct (decide (S i <= i < S i + n)%nat) as [H1 | H1]; [lia |].
      destruct (decide (i <= i < i + S n)%nat) as [H2 | H2]; [reflexivity | lia].
    + destruct (decide (S a <= i < S a + n)%nat) as [H1 | H1];
        destruct (decide (a <= i < a + S n)%nat) as [H2 | H2];
        (reflexivity || lia).
Qed.

(** X16: [scaleZBuffer] cell by cell: a cell that holds the sentinel, or lies
    beyond the first [zBufSize] cells, keeps its value; every other cell [v]
    becomes [(v - min) / range] as a 32-bit float, with the [min] and the
    [range] the scan took from the buffer before any cell was rewritten. *)
Theorem scaleZBuffer_cells (s : State) (i : Z) :
  Js.get (zBuf (scaleZBuffer s)) i
  = (fun v =>
       if (i <? Z.of_nat (Z.to_nat (zBufSize s)))
          && negb (PrimFloat.eqb v maxDistance)
       then Js.fround (PrimFloat.div (PrimFloat.sub v (fst (scale_minmax s)))
                                     (scale_range s))
       else v) <$> Js.get (zBuf s) i.
Proof.
  unfold scaleZBuffer, Js.get. cbn [zBuf set_zBuf].
  destruct (Z.ltb_spec i 0) as [Hneg | Hpos]; [reflexivity |].
  rewrite scale_loop_lookup.
  destruct (zBuf s !! Z.to_nat i) as [v |]; [| reflexivity].
  cbn [fmap option_fmap option_map]. f_equal.
  destruct (decide (0 <= Z.to_nat i < 0 + Z.to_nat (zBufSize s))%nat);
    destruct (Z.ltb_spec i (Z.of_nat (Z.to_nat (zBufSize s))));
    try lia; cbn [andb]; [| reflexivity].
  destruct (PrimFloat.eqb v maxDistance); reflexivity.
Qed.

(** ** Depth overlay: what [MultiplyFramebufferWithZBuffer] touches *)

Lemma length_shade_pixel (greyOnly : bool) (zb : list float) (fb : list Z) (i : Z) :
  length (shade_pixel greyOnly zb fb i) = length fb.
Proof.
  unfold shade_pixel. destruct (drawn (Js.get zb i)); [| reflexivity].
  destruct greyOnly; now rewrite !length_put.
Qed.

Lemma length_shade_loop (greyOnly : bool) (zb : list float) (l : list Z)
    (fb : list Z) :
  length (foldl (shade_pixel greyOnly zb) fb l) = length fb.
Proof.
  revert fb. induction l as [| i l IH]; intros fb; cbn [foldl]; [reflexivity |].
  now rewrite IH, length_shade_pixel.
Qed.

(** One round writes the three colour bytes of its pixel and no other. *)
Lemma shade_pixel_other (greyOnly : bool) (zb : list float) (fb : list Z) (i j : Z) :
  j <> i * 4 -> j <> i * 4 + 1 -> j <> i * 4 + 2 ->
  Js.get (shade_pixel greyOnly zb fb i) j = Js.get fb j.
Proof.
  intros H0 H1 H2. unfold shade_pixel.
  destruct (drawn (Js.get zb i)); [| reflexivity].
  destruct greyOnly; rewrite !get_put_other by congruence; reflexivity.
Qed.

Lemma shade_loop_other (greyOnly : bool) (zb : list float) (l : list Z)
    (fb : list Z) (j : Z) :
  Forall (fun i => j <> i * 4 /\ j <> i * 4 + 1 /\ j <> i * 4 + 2) l ->
  Js.get (foldl (shade_pixel greyOnly zb) fb l) j = Js.get fb j.
Proof.
  revert fb. induction l as [| i l IH]; intros fb Hl; cbn [foldl];
    [reflexivity |].
  inversion Hl as [| ? ? (H0 & H1 & H2) Hrest]; subst.
  rewrite IH by exact Hrest. now apply shade_pixel_other.
Qed.

(** X17: The overlay leaves the dirty rectangle and the size of the frame buffer
    as they were, rescales the z-buffer, never writes an alpha byte, and
    writes no byte of a pixel outside the linear span from the minimum
    corner up to, and not including, the maximum corner. *)
Theorem MultiplyFramebufferWithZBuffer_frame (greyOnly : bool) (s : State) :
  let s' := MultiplyFramebufferWithZBuffer greyOnly s in
  let d := dirtyRect s in
  let first := DirtyRect.y d * width s + DirtyRect.x d in
  let last := DirtyRect.yMax d * width s + DirtyRect.xMax d in
  zBuf s' = zBuf (scaleZBuffer s)
  /\ dirtyRect s' = dirtyRect s
  /\ length (framebuffer s') = length (framebuffer s)
  /\ (forall k, Js.get (framebuffer s') (k * 4 + 3) = Js.get (framebuffer s) (k * 4 + 3))
  /\ (forall j, j < first * 4 \/ last * 4 <= j ->
        Js.get (framebuffer s') j = Js.get (framebuffer s) j).
Proof.
  cbn zeta. unfold MultiplyFramebufferWithZBuffer.
  cbn [zBuf dirtyRect framebuffer width set_framebuffer scaleZBuffer set_zBuf].
  split; [reflexivity | split; [reflexivity | split; [| split]]].
  - apply length_shade_loop.
  - intros k. apply shade_loop_other, Forall_forall. intros i _. lia.
  - intros j Hj. apply shade_loop_other, Forall_seqZ. intros i Hi. lia.
Qed.

Lemma get_put3 (fb : list Z) (j v0 v1 v2 : Z) :
  0 <= j -> j + 2 < Z.of_nat (length fb) ->
  let fb' := Js.put (Js.put (Js.put fb j v0) (j + 1) v1) (j + 2) v2 in
  Js.get fb' j = Some v0 /\ Js.get fb' (j + 1) = Some v1
  /\ Js.get fb' (j + 2) = Some v2.
Proof.
  intros Hlo Hhi. cbn zeta. split; [| split].
  - rewrite !get_put_other by lia. apply get_put_same. lia.
  - rewrite get_put_other by lia. apply get_put_same. rewrite length_put. lia.
  - apply get_put_same. rewrite !length_put. lia.
Qed.

(** The colour byte [c] of a pixel after its round of the loop. *)
Lemma shade_pixel_at (greyOnly : bool) (zb : list float) (fb : list Z) (i c : Z) :
  0 <= i -> i * 4 + 2 < Z.of_nat (length fb) -> 0 <= c <= 2 ->
  Js.get (shade_pixel greyOnly zb fb i) (i * 4 + c)
  = if drawn (Js.get zb i)
    then Some (Num.clamp_byte
                 (if greyOnly
                  then PrimFloat.mul (PrimFloat.sub 1 (Num.of_depth (Js.get zb i))) 255
                  else PrimFloat.mul (Num.of_byte (Js.get fb (i * 4 + c)))
                                     (PrimFloat.sub 1 (Num.of_depth (Js.get zb i)))))
    else Js.get fb (i * 4 + c).
Proof.
  intros Hi Hlen Hc. unfold shade_pixel.
  destruct (drawn (Js.get zb i)); [| reflexivity].
  assert (Hj : 0 <= i * 4) by lia.
  assert (Hcases : c = 0 \/ c = 1 \/ c = 2) by lia.
  destruct greyOnly.
  - match goal with
    | |- Js.get (Js.put (Js.put (Js.put _ _ ?v0) _ ?v1) _ ?v2) _ = _ =>
        destruct (get_put3 fb (i * 4) v0 v1 v2 Hj Hlen) as (H0 & H1 & H2)
    end.
    destruct Hcases as [-> | [-> | ->]]; rewrite ?Z.add_0_r; assumption.
  - match goal with
    | |- Js.get (Js.put (Js.put (Js.put _ _ ?v0) _ ?v1) _ ?v2) _ = _ =>
        destruct (get_put3 fb (i * 4) v0 v1 v2 Hj Hlen) as (H0 & H1 & H2)
    end.
    destruct Hcases as [-> | [-> | ->]]; rewrite ?Z.add_0_r.
    + exact H0.
    + rewrite H1. now rewrite get_put_other by lia.
    + rewrite H2. now rewrite !get_put_other by lia.
Qed.

(** X18: The colour bytes of a pixel inside the span and inside the frame
    buffer, after the overlay: if the pixel's rescaled depth is the
    sentinel they are untouched; otherwise, with [f = 1 - depth], each is
    [f * 255] (grey mode) or the old byte times [f] (tint mode), as the
    clamped byte array keeps it. *)
Theorem MultiplyFramebufferWithZBuffer_pixel (greyOnly : bool) (s : State)
    (i c : Z) :
  let d := dirtyRect s in
  DirtyRect.y d * width s + DirtyRect.x d <= i
    < DirtyRect.yMax d * width s + DirtyRect.xMax d ->
  0 <= i -> i * 4 + 2 < Z.of_nat (length (framebuffer s)) -> 0 <= c <= 2 ->
  let z := Js.get (zBuf (scaleZBuffer s)) i in
  Js.get (framebuffer (MultiplyFramebufferWithZBuffer greyOnly s)) (i * 4 + c)
  = if drawn z
    then Some (Num.clamp_byte
                 (if greyOnly
                  then PrimFloat.mul (PrimFloat.sub 1 (Num.of_depth z)) 255
                  else PrimFloat.mul (Num.of_byte (Js.get (framebuffer s) (i * 4 + c)))
                                     (PrimFloat.sub 1 (Num.of_depth z))))
    else Js.get (framebuffer s) (i * 4 + c).
Proof.
  cbn zeta. intros Hspan Hi Hlen Hc. unfold MultiplyFramebufferWithZBuffer.
  cbn [zBuf dirtyRect framebuffer width set_framebuffer].
  change (dirtyRect (scaleZBuffer s)) with (dirtyRect s).
  change (width (scaleZBuffer s)) with (width s).
  change (framebuffer (scaleZBuffer s)) with (framebuffer s).
  set (zb := zBuf (scaleZBuffer s)).
  set (first := DirtyRect.y (dirtyRect s) * width s + DirtyRect.x (dirtyRect s)) in *.
  set (last := DirtyRect.yMax (dirtyRect s) * width s + DirtyRect.xMax (dirtyRect s)) in *.
  replace (last - first) with ((i - first) + (last - i)) by lia.
  rewrite seqZ_app by lia. replace (first + (i - first)) with i by lia.
  rewrite (seqZ_cons i) by lia. rewrite foldl_app. cbn [foldl].
  rewrite shade_loop_other
    by (apply Forall_seqZ; intros i' Hi'; lia).
  rewrite shade_pixel_at; [| lia | rewrite length_shade_loop; lia | lia].
  rewrite shade_loop_other
    by (apply Forall_seqZ; intros i' Hi'; lia).
  reflexivity.
Qed.

Lemma MultiplyFramebufferWithZBuffer_pixel_witness :
  Js.get (framebuffer
            (MultiplyFramebufferWithZBuffer true
               (set_zBuf (init_state (blank 2 2) None)
                         [6.5%float; maxDistance; 7%float; 6%float])))
         (0 * 4 + 1)
  = Some 128.
Proof.
  exact (MultiplyFramebufferWithZBuffer_pixel true
           (set_zBuf (init_state (blank 2 2) None)
                     [6.5%float; maxDistance; 7%float; 6%float])
           0 1
           ltac:(vm_compute; split; [discriminate | reflexivity])
           ltac:(vm_compute; discriminate)
           ltac:(vm_compute; reflexivity)
           ltac:(vm_compute; split; discriminate)).
Defined.

(** ** Presentation after a reset *)

Lemma reset_leaves_empty (s s' : State) (r : option ClearRect.t) :
  reset s = Some (s', r) ->
  width s' = width s /\ height s' = height s
  /\ dirtyRect s' = resetDirtyRect (width s) (height s).
Proof.
  unfold reset. intros Hreset.
  repeat match type of Hreset with
         | (if ?c then _ else _) = _ => destruct c
         end; inversion Hreset; subst; cbn; auto.
Qed.

(** X19: [display] straight after a [reset], with the depth overlay on or off:
    no byte of the frame buffer changes, and nothing is presented, except
    on a 1x1 canvas, whose empty rectangle (0, 0, 0, 0) is presented as the
    one pixel. *)
Theorem display_after_reset (debug_zBuffer : bool) (s s' : State)
    (r : option ClearRect.t) :
  1 <= width s -> 1 <= height s -> reset s = Some (s', r) ->
  framebuffer (Shown.state (display debug_zBuffer s')) = framebuffer s'
  /\ Shown.put (display debug_zBuffer s')
     = if (1 <? width s) || (1 <? height s) then None
       else Some (PutImageData.mk 0 0 0 0 1 1).
Proof.
  intros Hw Hh Hreset.
  destruct (reset_leaves_empty s s' r Hreset) as (Hw' & Hh' & Hd').
  assert (Hstate : forall b : bool,
             dirtyRect (if b then MultiplyFramebufferWithZBuffer true s' else s')
             = dirtyRect s'
             /\ framebuffer (if b then MultiplyFramebufferWithZBuffer true s' else s')
                = framebuffer s').
  { intros [|]; [| split; reflexivity]. split; [reflexivity |].
    unfold MultiplyFramebufferWithZBuffer.
    cbn [framebuffer set_framebuffer].
    change (dirtyRect (scaleZBuffer s')) with (dirtyRect s').
    change (width (scaleZBuffer s')) with (width s').
    change (framebuffer (scaleZBuffer s')) with (framebuffer s').
    rewrite Hd', Hw'. cbn [resetDirtyRect DirtyRect.x DirtyRect.y
                           DirtyRect.xMax DirtyRect.yMax].
    rewrite seqZ_nil by nia. reflexivity. }
  destruct (Hstate debug_zBuffer) as [Hd Hfb].
  unfold display. rewrite Hd, Hd'.
  cbn [resetDirtyRect DirtyRect.x DirtyRect.y DirtyRect.xMax DirtyRect.yMax].
  destruct (Z.ltb_spec (0 - (width s - 1)) 0);
    destruct (Z.ltb_spec (0 - (height s - 1)) 0);
    destruct (Z.ltb_spec 1 (width s)); destruct (Z.ltb_spec 1 (height s));
    try lia; cbn [orb Shown.state Shown.put]; (split; [exact Hfb |]);
    try reflexivity.
  replace (width s) with 1 by lia. replace (height s) with 1 by lia. reflexivity.
Qed.

Lemma display_after_reset_witness :
  exists s' r,
    reset (init_state (blank 4 4) None) = Some (s', r)
    /\ framebuffer (Shown.state (display true s')) = framebuffer s'
    /\ Shown.put (display true s') = None.
Proof.
  destruct (reset (init_state (blank 4 4) None)) as [[s' r] |] eqn:Hreset;
    [| vm_compute in Hreset; discriminate Hreset].
  exists s', r. split; [reflexivity |].
  exact (display_after_reset true (init_state (blank 4 4) None) s' r
           ltac:(vm_compute; discriminate) ltac:(vm_compute; discriminate) Hreset).
Defined.

(** ** Any sequence of calls after [init] *)

Lemma clamp_byte_range (z : float) : 0 <= Num.clamp_byte z <= 255.
Proof.
  unfold Num.clamp_byte.
  destruct (Prim2SF z) as [sg | sg | | sg m e]; try destruct sg; try lia.
  destruct (Z.leb_spec 0 e) as [He | He].
  - pose proof (proj2 (Z.shiftl_nonneg (Z.pos m) e) ltac:(lia)). lia.
  - assert (Hd : 0 < Z.shiftl 1 (- e))
      by (rewrite Z.shiftl_1_l; apply Z.pow_pos_nonneg; lia).
    pose proof (Z.div_pos (Z.pos m) (Z.shiftl 1 (- e)) ltac:(lia) Hd) as Hf.
    destruct (2 * (Z.pos m mod Z.shiftl 1 (- e)) <? Z.shiftl 1 (- e));
      [lia |].
    destruct (Z.shiftl 1 (- e) <? 2 * (Z.pos m mod Z.shiftl 1 (- e)));
      [lia |].
    destruct (Z.even (Z.pos m / Z.shiftl 1 (- e))); lia.
Qed.

Lemma bytes_ok_put (fb : list Z) (i v : Z) :
  bytes_ok fb -> 0 <= v <= 255 -> bytes_ok (Js.put fb i v).
Proof.
  intros Hfb Hv. unfold Js.put. destruct (i <? 0); [exact Hfb |].
  now apply Forall_insert.
Qed.

Lemma bytes_ok_write_pixel (fb : list Z) (index : Z) (rgba : list float) :
  bytes_ok fb -> bytes_ok (write_pixel fb index rgba).
Proof.
  intros Hfb. unfold write_pixel.
  repeat apply bytes_ok_put; try apply clamp_byte_range. exact Hfb.
Qed.

Lemma bytes_ok_shade_pixel (greyOnly : bool) (zb : list float) (fb : list Z) (i : Z) :
  bytes_ok fb -> bytes_ok (shade_pixel greyOnly zb fb i).
Proof.
  intros Hfb. unfold shade_pixel. destruct (drawn (Js.get zb i)); [| exact Hfb].
  destruct greyOnly; repeat apply bytes_ok_put; try apply clamp_byte_range;
    exact Hfb.
Qed.

Lemma bytes_ok_shade_loop (greyOnly : bool) (zb : list float) (l : list Z)
    (fb : list Z) :
  bytes_ok fb -> bytes_ok (foldl (shade_pixel greyOnly zb) fb l).
Proof.
  revert fb. induction l as [| i l IH]; intros fb Hfb; cbn [foldl];
    [exact Hfb |].
  now apply IH, bytes_ok_shade_pixel.
Qed.

Lemma bytes_ok_bytes (a : list Z) : bytes_ok (Js.bytes a).
Proof.
  unfold bytes_ok, Js.bytes. induction a as [| v a IH]; cbn [map concat].
  - constructor.
  - apply Forall_app. split; [| exact IH].
    unfold Js.word_bytes. change 255 with (Z.ones 8).
    repeat constructor; rewrite Z.land_ones by lia;
      pose proof (Z.mod_pos_bound v (2 ^ 8) ltac:(lia));
      pose proof (Z.mod_pos_bound (Z.shiftr v 8) (2 ^ 8) ltac:(lia));
      pose proof (Z.mod_pos_bound (Z.shiftr v 16) (2 ^ 8) ltac:(lia));
      pose proof (Z.mod_pos_bound (Z.shiftr v 24) (2 ^ 8) ltac:(lia));
      change (Z.ones 8) with 255; lia.
Qed.

Lemma bytes_ok_copy (dst src : list Z) (off n : Z) :
  bytes_ok dst -> bytes_ok src -> bytes_ok (Js.copy dst off src n).
Proof.
  intros Hdst Hsrc. unfold bytes_ok, Js.copy.
  rewrite !Forall_app. repeat split;
    (apply Forall_take || apply Forall_drop); assumption.
Qed.

Lemma length_scale_loop (min range : float) (l : list nat) (zb : list float) :
  length (foldl (scale_step min range) zb l) = length zb.
Proof.
  revert zb. induction l as [| i l IH]; intros zb; cbn [foldl]; [reflexivity |].
  rewrite IH. unfold scale_step. destruct (zb !! i) as [v |]; [| reflexivity].
  destruct (PrimFloat.eqb v maxDistance); [reflexivity | apply length_insert].
Qed.

Lemma set_stable (s : State) (x y : Z) (z : float) (color : Color)
    (doZBufferTest adjustDirtyRect : option bool) :
  bytes_ok (framebuffer s) ->
  stable s (set s x y z color doZBufferTest adjustDirtyRect)
  /\ bytes_ok (framebuffer (set s x y z color doZBufferTest adjustDirtyRect)).
Proof.
  intros Hfb. unfold set, stable.
  destruct ((x <? 0) || (y <? 0) || (width s <=? x) || (height s <=? y));
    [auto 10 |].
  assert (Hpre : exists s1 pass,
             (if enabled doZBufferTest then zBufferTest s x y z else (s, true))
             = (s1, pass)
             /\ width s1 = width s /\ height s1 = height s
             /\ resetZBuffer s1 = resetZBuffer s /\ resetBuffer32 s1 = resetBuffer32 s
             /\ framebuffer s1 = framebuffer s).
  { destruct (enabled doZBufferTest).
    - pose proof (zBufferTest_fields s x y z) as Hf. cbn zeta in Hf.
      destruct (zBufferTest s x y z) as [s1 pass]. exists s1, pass.
      cbn in Hf. intuition.
    - exists s, true. auto 10. }
  destruct Hpre as (s1 & pass & -> & Hw & Hh & Hrz & Hr32 & Hfb1).
  destruct pass; cbn [negb]; [| rewrite Hfb1; auto 10].
  destruct (enabled adjustDirtyRect); cbn; rewrite ?Hfb1;
    (split; [auto 10 | now apply bytes_ok_write_pixel]).
Qed.

Lemma display_fields (debug_zBuffer : bool) (s : State) :
  sound s ->
  sound (Shown.state (display debug_zBuffer s))
  /\ stable s (Shown.state (display debug_zBuffer s)).
Proof.
  intros ((Hz & Hrz & Hr32 & Hlen) & Hcanvas & Hfb).
  assert (Hstate : Shown.state (display debug_zBuffer s)
                   = if debug_zBuffer then MultiplyFramebufferWithZBuffer true s
                     else s).
  { unfold display.
    destruct ((_ <? 0) || (_ <? 0)); reflexivity. }
  rewrite Hstate. destruct debug_zBuffer.
  - unfold sound, allocated, in_canvas, stable, MultiplyFramebufferWithZBuffer.
    cbn. rewrite length_shade_loop, length_scale_loop.
    repeat split; try assumption; try apply Hcanvas.
    now apply bytes_ok_shade_loop.
  - unfold sound, stable, allocated. auto 10.
Qed.

(** One call on a sound state: it returns, to a sound state with the same
    canvas size and templates. *)
Lemma call_sound (s : State) (c : Call) :
  sound s -> checked (width s) (height s) c ->
  exists s', call s c = Some s' /\ sound s' /\ stable s s'.
Proof.
  intros Hsound Hc. pose proof Hsound as (Halloc & Hcanvas & Hfb).
  destruct c as [x y z color f1 f2 | x y z | x y | | debug]; cbn [call].
  - eexists. split; [reflexivity |].
    destruct (set_invariant s x y z color f1 f2 Halloc Hcanvas) as [Ha Hi].
    destruct (set_stable s x y z color f1 f2 Hfb) as [Hst Hb].
    unfold sound. auto.
  - eexists. split; [reflexivity |].
    pose proof (zBufferTest_fields s x y z) as Hf. cbn zeta in Hf.
    destruct Hf as (Hw & Hh & Hz & Hrz & Hr32 & Hfb' & Hd).
    unfold sound, allocated, in_canvas, stable in *.
    rewrite Hw, Hh, Hz, Hrz, Hr32, Hfb', Hd. auto 10.
  - eexists. split; [reflexivity |]. cbn in Hc. destruct Hc as [Hx Hy].
    unfold sound, allocated, in_canvas, stable in *. cbn.
    repeat split; try apply Halloc; try assumption;
      apply (adjustDirtyRectangle_in_canvas (dirtyRect s) (width s) (height s) x y
               Hx Hy Hcanvas).
  - pose proof (reset_unfold s Halloc Hcanvas) as Hreset. cbn zeta in Hreset.
    destruct (reset s) as [[s' r] |] eqn:Heq;
      [| destruct (_ <? _) in Hreset; discriminate Hreset].
    exists s'. split; [reflexivity |].
    destruct (reset_invariant s s' r Halloc Hcanvas Heq) as [Ha Hi].
    destruct (_ <? _) in Hreset; inversion Hreset; subst s' r;
      (split; [split; [exact Ha | split; [exact Hi |]]
              | unfold stable; cbn; auto]); cbn; [| exact Hfb].
    apply bytes_ok_copy; [exact Hfb | apply bytes_ok_bytes].
  - eexists. split; [reflexivity |]. now apply display_fields.
Qed.

Lemma run_sound (cs : list Call) (s : State) :
  sound s -> Forall (checked (width s) (height s)) cs ->
  exists s', run s cs = Some s' /\ sound s' /\ stable s s'.
Proof.
  revert s. induction cs as [| c cs IH]; intros s Hsound Hcs; cbn [run].
  - exists s. unfold stable. auto 10.
  - inversion Hcs as [| ? ? Hc Hrest]; subst.
    destruct (call_sound s c Hsound Hc) as (s1 & -> & Hsound1 & Hst1).
    destruct Hst1 as (Hw & Hh & Hrz & Hr32).
    rewrite <- Hw, <- Hh in Hrest.
    destruct (IH s1 Hsound1 Hrest) as (s' & Hrun & Hsound' & Hst').
    exists s'. split; [exact Hrun | split; [exact Hsound' |]].
    unfold stable in *. intuition congruence.
Qed.

(** X20: After [init] on a canvas of at least one pixel whose image data are
    bytes of the canvas' size, no sequence of calls of the exported
    functions raises an exception, provided the coordinates given to
    [adjustDirtyRectangle] itself lie on the canvas; the state it ends in
    has buffers of the canvas' size, a dirty rectangle inside the canvas,
    bytes in the frame buffer, and the canvas size and templates of
    [init]. *)
Theorem calls_after_init (ctx : Ctx.t) (bg : option (list Z)) (cs : list Call) :
  1 <= Ctx.width ctx -> 1 <= Ctx.height ctx ->
  length (Ctx.data ctx) = Z.to_nat (Ctx.width ctx * Ctx.height ctx * 4) ->
  bytes_ok (Ctx.data ctx) ->
  Forall (checked (Ctx.width ctx) (Ctx.height ctx)) cs ->
  exists s0 r0 s,
    init ctx bg = Some (s0, r0) /\ run s0 cs = Some s
    /\ sound s /\ stable s0 s /\ width s = Ctx.width ctx
    /\ height s = Ctx.height ctx.
Proof.
  intros Hw Hh Hdata Hbytes Hcs. unfold init.
  assert (Hsound0 : sound (init_state ctx bg)).
  { split; [now apply allocated_init_state |].
    split; [now apply in_canvas_init_state | exact Hbytes]. }
  assert (Hchecked : checked (width (init_state ctx bg)) (height (init_state ctx bg))
                             CallReset) by exact I.
  destruct (call_sound (init_state ctx bg) CallReset Hsound0 Hchecked)
    as (s0 & Hcall & Hsound1 & Hst1).
  cbn [call] in Hcall.
  destruct (reset (init_state ctx bg)) as [[s0' r0] |]; [| discriminate Hcall].
  cbn in Hcall. injection Hcall as ->.
  destruct Hst1 as (Hw1 & Hh1 & _).
  assert (Hw0 : width s0 = Ctx.width ctx)
    by (rewrite Hw1; unfold init_state, initResetBuffer; reflexivity).
  assert (Hh0 : height s0 = Ctx.height ctx)
    by (rewrite Hh1; unfold init_state, initResetBuffer; reflexivity).
  rewrite <- Hw0, <- Hh0 in Hcs.
  destruct (run_sound cs s0 Hsound1 Hcs) as (s & Hrun & Hsound & Hst).
  exists s0, r0, s. repeat split; try assumption; try apply Hsound;
    try apply Hst; destruct Hst as (Hws & Hhs & _); congruence.
Qed.

Lemma calls_after_init_witness :
  exists s0 r0 s,
    init (blank 2 2) None = Some (s0, r0)
    /\ run s0 [CallSet 0 1 5%float {| rgbaShaded := [1; 2; 3; 4]%float |} None None;
               CallAdjustDirtyRectangle 1 1; CallDisplay true; CallReset;
               CallZBufferTest 7 7 1%float] = Some s
    /\ sound s /\ stable s0 s /\ width s = 2 /\ height s = 2.
Proof.
  apply (calls_after_init (blank 2 2) None
           [CallSet 0 1 5%float {| rgbaShaded := [1; 2; 3; 4]%float |} None None;
            CallAdjustDirtyRectangle 1 1; CallDisplay true; CallReset;
            CallZBufferTest 7 7 1%float]).
  - vm_compute. discriminate.
  - vm_compute. discriminate.
  - reflexivity.
  - apply Forall_replicate. lia.
  - repeat constructor; vm_compute; discriminate.
Defined.

(** ** What a reset gives back after [init] and any calls *)

(** X21: The positive side of the round trip: whatever was drawn since [init],
    a [reset] leaves every pixel whose linear index lies from the minimum
    corner up to, and not including, the maximum corner with the resolved
    background colour and the sentinel depth. *)
Theorem reset_restores_background (ctx : Ctx.t) (bg : option (list Z))
    (r g b a : Z) (cs : list Call) (s0 s s' : State)
    (r0 ret : option ClearRect.t) (x y : Z) :
  1 <= Ctx.width ctx -> 1 <= Ctx.height ctx ->
  length (Ctx.data ctx) = Z.to_nat (Ctx.width ctx * Ctx.height ctx * 4) ->
  bytes_ok (Ctx.data ctx) ->
  resolve_bgColor bgColor0 bg = [r; g; b; a] ->
  0 <= r <= 255 -> 0 <= g <= 255 -> 0 <= b <= 255 -> 0 <= a <= 255 ->
  Forall (checked (Ctx.width ctx) (Ctx.height ctx)) cs ->
  init ctx bg = Some (s0, r0) -> run s0 cs = Some s -> reset s = Some (s', ret) ->
  0 <= x < Ctx.width ctx -> 0 <= y < Ctx.height ctx ->
  DirtyRect.y (dirtyRect s) * width s + DirtyRect.x (dirtyRect s)
    <= y * width s + x
    < DirtyRect.yMax (dirtyRect s) * width s + DirtyRect.xMax (dirtyRect s) ->
  pixel s' x y = [Some r; Some g; Some b; Some a]
  /\ depth s' x y = Some maxDistance.
Proof.
  intros Hw Hh Hdata Hbytes Hbg Hr Hg Hb Ha Hcs Hinit Hrun Hreset Hx Hy Hspan.
  unfold init in Hinit.
  assert (Hsound0 : sound (init_state ctx bg)).
  { split; [now apply allocated_init_state |].
    split; [now apply in_canvas_init_state | exact Hbytes]. }
  destruct (call_sound (init_state ctx bg) CallReset Hsound0 I)
    as (s0' & Hcall & Hsound1 & Hst1).
  cbn [call] in Hcall. rewrite Hinit in Hcall. cbn in Hcall.
  injection Hcall as <-.
  rewrite (init_state_fields ctx bg r g b a Hbg) in Hst1.
  destruct Hst1 as (Hw1 & Hh1 & Hrz1 & Hr321).
  cbn [width height resetZBuffer resetBuffer32] in Hw1, Hh1, Hrz1, Hr321.
  rewrite <- Hw1, <- Hh1 in Hcs.
  destruct (run_sound cs s0 Hsound1 Hcs) as (s1 & Hrun1 & Hsound & Hst).
  rewrite Hrun in Hrun1. injection Hrun1 as <-.
  destruct Hst as (Hws & Hhs & Hrzs & Hr32s).
  destruct Hsound as (Halloc & Hcanvas & _).
  rewrite (reset_unfold s Halloc Hcanvas) in Hreset. cbn zeta in Hreset.
  destruct (corners_in_range s Hcanvas) as [Hfirst Hlast]. cbn zeta in *.
  destruct Halloc as (Hz & Hrz & Hr32 & Hfb).
  set (first := DirtyRect.y (dirtyRect s) * width s + DirtyRect.x (dirtyRect s)) in *.
  set (last := DirtyRect.yMax (dirtyRect s) * width s + DirtyRect.xMax (dirtyRect s)) in *.
  set (idx := y * width s + x) in *.
  destruct (Z.ltb_spec first last) as [Hlt | Hge]; [| lia].
  inversion Hreset; subst s' ret; clear Hreset.
  unfold pixel, depth.
  cbn [width framebuffer zBuf set_dirtyRect set_framebuffer set_zBuf].
  fold idx.
  pose proof (packed_bgcolor_bytes r g b a Hr Hg Hb Ha) as Hword.
  assert (Hn : Z.of_nat (Z.to_nat (width s * height s)) = width s * height s) by lia.
  split.
  - rewrite <- (Z.add_0_r (idx * 4)) at 1.
    rewrite !get_copy_inside; rewrite ?length_bytes; try lia.
    replace (idx * 4 + 0 - first * 4) with ((idx - first) * 4 + Z.of_nat 0) by lia.
    replace (idx * 4 + 1 - first * 4) with ((idx - first) * 4 + Z.of_nat 1) by lia.
    replace (idx * 4 + 2 - first * 4) with ((idx - first) * 4 + Z.of_nat 2) by lia.
    replace (idx * 4 + 3 - first * 4) with ((idx - first) * 4 + Z.of_nat 3) by lia.
    rewrite Hr32s, Hr321, Z.div_mul by lia.
    rewrite !get_bytes_replicate by lia. rewrite Hword. reflexivity.
  - rewrite get_copy_inside by lia.
    rewrite Hrzs, Hrz1. unfold Js.get.
    destruct (Z.ltb_spec (idx - first) 0); [lia |].
    apply lookup_replicate_2. lia.
Qed.

Lemma reset_restores_background_witness :
  exists s0 r0 s s' ret,
    init (blank 4 4) (Some [10; 20; 30]) = Some (s0, r0)
    /\ run s0 [CallSet 1 1 5%float {| rgbaShaded := [1; 2; 3; 4]%float |} None None;
               CallSet 2 2 6%float {| rgbaShaded := [5; 6; 7; 8]%float |} None None]
       = Some s
    /\ pixel s 1 1 = [Some 1; Some 2; Some 3; Some 4]
    /\ reset s = Some (s', ret)
    /\ pixel s' 1 1 = [Some 10; Some 20; Some 30; Some 255]
    /\ depth s' 1 1 = Some maxDistance.
Proof.
  destruct (init (blank 4 4) (Some [10; 20; 30])) as [[s0 r0] |] eqn:Hinit;
    [| vm_compute in Hinit; discriminate Hinit].
  destruct (run s0 [CallSet 1 1 5%float {| rgbaShaded := [1; 2; 3; 4]%float |} None None;
                    CallSet 2 2 6%float {| rgbaShaded := [5; 6; 7; 8]%float |} None None])
    as [s |] eqn:Hrun;
    [| vm_compute in Hinit; injection Hinit as <- <-;
       vm_compute in Hrun; discriminate Hrun].
  destruct (reset s) as [[s' ret] |] eqn:Hreset;
    [| vm_compute in Hinit; injection Hinit as <- <-;
       vm_compute in Hrun; injection Hrun as <-;
       vm_compute in Hreset; discriminate Hreset].
  exists s0, r0, s, s', ret.
  split; [try reflexivity; exact Hinit | split; [exact Hrun |]].
  assert (Hs : pixel s 1 1 = [Some 1; Some 2; Some 3; Some 4]
               /\ DirtyRect.y (dirtyRect s) * width s + DirtyRect.x (dirtyRect s)
                  <= 1 * width s + 1
                  < DirtyRect.yMax (dirtyRect s) * width s + DirtyRect.xMax (dirtyRect s)).
  { vm_compute in Hinit. injection Hinit as <- <-.
    vm_compute in Hrun. injection Hrun as <-.
    vm_compute. repeat split; discriminate. }
  destruct Hs as [Hpix Hspan].
  split; [exact Hpix | split; [exact Hreset |]].
  apply (reset_restores_background (blank 4 4) (Some [10; 20; 30]) 10 20 30 255
           [CallSet 1 1 5%float {| rgbaShaded := [1; 2; 3; 4]%float |} None None;
            CallSet 2 2 6%float {| rgbaShaded := [5; 6; 7; 8]%float |} None None]
           s0 s s' r0 ret 1 1);
    try assumption; try reflexivity;
    try (vm_compute; discriminate);
    try (vm_compute; split; discriminate);
    try (vm_compute; split; [discriminate | reflexivity]).
  - apply Forall_replicate. lia.
  - repeat constructor.
Defined.

(** ** A depth that is not a number *)

Lemma ltb_nan (stored : float) :
  PrimFloat.ltb stored (PrimFloat.add nan 10) = false.
Proof.
  change (PrimFloat.add nan 10) with nan.
  rewrite ltb_spec. change (Prim2SF nan) with S754_nan.
  unfold SFltb, SFcompare. destruct (Prim2SF stored) as [sg | sg | | sg m e];
    try destruct sg; reflexivity.
Qed.

(** X22: A fragment whose depth is [NaN] never passes a requested depth test on
    a z-buffer of the canvas' size: [set] returns the state as it was,
    wherever the pixel lies. *)
Theorem set_nan_depth (s : State) (x y : Z) (color : Color)
    (doZBufferTest adjustDirtyRect : option bool) :
  length (zBuf s) = Z.to_nat (width s * height s) ->
  enabled doZBufferTest = true ->
  set s x y nan color doZBufferTest adjustDirtyRect = s.
Proof.
  intros Hlen Hflag. unfold set. rewrite Hflag.
  destruct (Z.ltb_spec x 0); [reflexivity |].
  destruct (Z.ltb_spec y 0); [reflexivity |].
  destruct (Z.leb_spec (width s) x); [reflexivity |].
  destruct (Z.leb_spec (height s) y); [reflexivity |]. cbn [orb].
  pose proof (index_in_range (width s) (height s) x y ltac:(lia) ltac:(lia)) as Hidx.
  destruct (get_inside (zBuf s) (y * width s + x) ltac:(lia)) as [stored Hget].
  unfold zBufferTest. rewrite Hget, ltb_nan. reflexivity.
Qed.

Lemma set_nan_depth_witness :
  set (init_state (blank 4 4) None) 1 1 nan {| rgbaShaded := [1; 2; 3; 4]%float |}
      None None
  = init_state (blank 4 4) None.
Proof. apply set_nan_depth; reflexivity. Defined.
